(** * infi.asi_utils: the command-line core, embedded and verified

    A shallow embedding of [src/infi/asi_utils/__init__.py] (Python 2):
    the output context, the execution channel resolver [asi_context], the
    bridge [sync_wait], the raw command builder [build_raw_command], the
    command families and [main] under its [exception_handler].

    Python [str] values are byte strings, modelled as [string]; integers
    are unbounded, modelled as [Z]; the process state the program touches
    (platform name, standard streams, files, the module-level
    [ActiveOutputContext], the device) is threaded explicitly through a
    state-and-exception monad. *)

From Stdlib Require Import ZArith String Ascii List Bool Lia DecimalString.
From stdpp Require Import base option strings gmap list.

Local Open Scope string_scope.
Local Open Scope Z_scope.
Local Open Scope list_scope.

(** ** Python values the program handles *)

(** An opaque object of the protocol library (a parsed response, a sense
    descriptor): only its identity is visible here. *)
Definition pyobject := N.

(** The exception classes that can reach the top-level handler; a class
    the program never names is an [OtherError].
    [AsiCheckConditionError] derives from [AsiSCSIError] in infi.asi; the
    handler tries it first, so the two are kept apart as constructors. *)
Inductive exn :=
| ValueError (msg : string)
| NotImplementedError (msg : string)
| TypeError (msg : string)
| IOError (msg : string)
| AssertionError
| AsiCheckConditionError (sense_obj : pyobject)
| AsiSCSIError (msg : string)
| AsiOSError (msg : string)
| OtherError (class_name msg : string)
| SystemExit (code : Z).

Inductive res (A : Type) :=
| Ok (a : A)
| Raise (e : exn).
Arguments Ok {A} a.
Arguments Raise {A} e.

(** ** The builtins of Python 2 the source relies on *)
Module Py.

Definition ord (c : ascii) : Z := Z.of_N (N_of_ascii c).
Definition chr (n : Z) : ascii := ascii_of_N (Z.to_N n).

Definition is_digit (c : ascii) : bool := (48 <=? ord c) && (ord c <=? 57).

(** C [isspace]: space, \t, \n, \v, \f, \r. *)
Definition is_space (c : ascii) : bool :=
  (ord c =? 32) || ((9 <=? ord c) && (ord c <=? 13)).

(** [s.isdigit()]: at least one character and every character a digit. *)
Definition isdigit (s : string) : bool :=
  match s with
  | EmptyString => false
  | _ => forallb is_digit (list_ascii_of_string s)
  end.

(** [s.startswith(p)]. *)
Definition startswith (s p : string) : bool := String.prefix p s.

(** The value of a character as a digit in bases up to 36. *)
Definition digit_value (c : ascii) : option Z :=
  let n := ord c in
  if (48 <=? n) && (n <=? 57) then Some (n - 48)
  else if (97 <=? n) && (n <=? 122) then Some (n - 97 + 10)
  else if (65 <=? n) && (n <=? 90) then Some (n - 65 + 10)
  else None.

Fixpoint lstrip (s : string) : string :=
  match s with
  | String c s' => if is_space c then lstrip s' else s
  | EmptyString => EmptyString
  end.

(** Consume the longest run of digits valid in [base]: the accumulated
    value, how many digits were read, and the rest of the text. *)
Fixpoint scan_digits (base acc : Z) (n : nat) (s : string) : Z * nat * string :=
  match s with
  | String c s' =>
      match digit_value c with
      | Some d => if d <? base then scan_digits base (acc * base + d) (S n) s'
                  else (acc, n, s)
      | None => (acc, n, s)
      end
  | EmptyString => (acc, n, s)
  end.

Definition split_sign (s : string) : Z * string :=
  match s with
  | String "+" s' => (1, s')
  | String "-" s' => (-1, s')
  | _ => (1, s)
  end.

(** Base 16 accepts an optional [0x] or [0X] in front of the digits. *)
Definition strip_radix_prefix (base : Z) (s : string) : string :=
  match s with
  | String "0" (String c s') =>
      if (base =? 16) && ((ord c =? 120) || (ord c =? 88)) then s' else s
  | _ => s
  end.

(** [int(s, base)] on a [str], for the bases the program uses (10, 16):
    surrounding white space is ignored, then an optional sign, the
    optional radix prefix, and one or more digits up to the end of the
    text.  [None] is the interpreter's [ValueError]. *)
Definition int_literal (s : string) (base : Z) : option Z :=
  let '(sign, body) := split_sign (lstrip s) in
  let '(v, n, rest) := scan_digits base 0 0 (strip_radix_prefix base body) in
  match n, lstrip rest with
  | S _, EmptyString => Some (sign * v)
  | _, _ => None
  end.

Definition hex_digit (n : Z) : ascii :=
  if n <? 10 then chr (48 + n) else chr (97 + n - 10).

(** [repr(s)] of a [str]. *)
Definition double_quote : ascii := chr 34.

Definition repr_quote (s : string) : ascii :=
  if existsb (Ascii.eqb "'") (list_ascii_of_string s)
     && negb (existsb (Ascii.eqb double_quote) (list_ascii_of_string s))
  then double_quote else "'"%char.

Definition repr_char (q c : ascii) : string :=
  if Ascii.eqb c q || Ascii.eqb c "\" then String "\" (String c "")
  else if ord c =? 9 then "\t"
  else if ord c =? 10 then "\n"
  else if ord c =? 13 then "\r"
  else if (ord c <? 32) || (127 <=? ord c)
       then String "\" (String "x" (String (hex_digit (ord c / 16))
                                     (String (hex_digit (ord c mod 16)) "")))
  else String c "".

Definition repr (s : string) : string :=
  let q := repr_quote s in
  String q (String.concat "" (map (repr_char q) (list_ascii_of_string s)))
    +:+ String q "".

Definition str_of_Z (n : Z) : string := NilZero.string_of_int (Z.to_int n).

(** [int(s, base)] as the program sees it. *)
Definition int (s : string) (base : Z) : res Z :=
  match int_literal s base with
  | Some v => Ok v
  | None => Raise (ValueError ("invalid literal for int() with base "
                                 +:+ str_of_Z base +:+ ": " +:+ repr s))
  end.

(** Truth value of an [int]. *)
Definition truthy (n : Z) : bool := negb (n =? 0).

(** [len(s)]. *)
Definition len (s : string) : Z := Z.of_nat (String.length s).

(** [f.read(n)] for a non-negative [n]: at most [n] bytes, and what is
    left of the stream. *)
Definition read (n : Z) (s : string) : string * string :=
  (String.substring 0 (Z.to_nat n) s,
   String.substring (Z.to_nat n) (String.length s - Z.to_nat n) s).

End Py.

(** ** Data model *)

(** The formatter classes of the [formatters] module, by identity. *)
Inductive formatter :=
| DefaultOutputFormatter
| ErrorOutputFormatter
| ReadcapOutputFormatter
| LunsOutputFormatter
| RtpgOutputFormatter
| HexOutputFormatter
| RawOutputFormatter
| JsonOutputFormatter.

(** The two sub-operations of infi.asi a raw command hands to a channel. *)
Inductive scsi_op :=
| SCSIReadCommand (datagram : string) (max_response_length : Z)
| SCSIWriteCommand (datagram : string) (data : string).

(** The command classes of infi.asi.cdb that the families instantiate;
    their encoders are outside this program. *)
Inductive library_command :=
| TestUnitReadyCommand
| StandardInquiryCommand (allocation_length : Z)
| VpdPageCommand (page : Z)
| ReportLunsCommand (select_report : Z)
| RTPGCommand (parameter_data_format : Z)
| ReadCapacity10Command
| ReadCapacity16Command
| LogSenseCommand (page_code : Z).

(** An instance of the local class [CDB] of [build_raw_command] is its
    closure: the variables of the enclosing call that the methods read,
    with the values they hold when the builder returns. *)
Record CDB := mkCDB {
  cdb_raw : string;
  request_length : Z;
  send_length : Z;
  data : string;
}.

Inductive command :=
| Raw (c : CDB)
| Library (c : library_command).

Inductive value :=
| VNone
| VStr (s : string)
| VCommand (c : command)
| VObject (o : pyobject).

(** A command's [execute] generator, as the bridge drives it: either it
    is suspended on a channel call and resumes with the result datagram,
    or it has yielded its final value. *)
Inductive coroutine :=
| Call (op : scsi_op) (resume : string -> coroutine)
| Final (v : value).

Inductive executer_kind := windows | linux_sg | linux_dm | solaris | aix.

Record executer := mkExecuter {
  ex_kind : executer_kind;
  ex_device : string;
}.

Inductive reset_kind := target_reset | host_reset | lun_reset.

(** What reaches the devices, in order. *)
Inductive event :=
| Opened (e : executer)
| Called (e : executer) (op : scsi_op)
| Closed (e : executer)
| Reset (k : reset_kind) (device : string).

Record OutputContext := mkOutputContext {
  _verbose : bool;
  _command_formatter : formatter;
  _result_formatter : formatter;
}.

(** [OutputContext.__init__]. *)
Definition OutputContext_init : OutputContext :=
  {| _verbose := false;
     _command_formatter := DefaultOutputFormatter;
     _result_formatter := DefaultOutputFormatter |}.

Inductive stream := Stdout | Stderr.

(** The state of the process and of its surroundings. *)
Record World := mkWorld {
  platform : string;                 (* what get_platform_string() returns *)
  stdin : string;                    (* what is left to read on sys.stdin *)
  files : gmap string string;        (* file name to contents *)
  stdout : list string;              (* one entry per print to sys.stdout *)
  stderr : list string;              (* one entry per print to sys.stderr *)
  ActiveOutputContext : OutputContext;
  events : list event;
}.

(** The dictionary docopt builds from the usage text: it has every key of
    the usage text, so it is a record of the values under those keys. *)
Inductive cdb_argument :=
| CdbList (tokens : list string)
| CdbStr (dump : string).

Record Arguments := mkArguments {
  arg_turs : bool; arg_inq : bool; arg_luns : bool; arg_rtpg : bool;
  arg_readcap : bool; arg_raw : bool; arg_logs : bool; arg_reset : bool;
  arg_device : string;                 (* <device> *)
  arg_cdb : cdb_argument;              (* <cdb> *)
  arg_number : string;                 (* --number, default "1" *)
  arg_page : option string;            (* --page *)
  arg_select : string;                 (* --select, default "0" *)
  arg_extended : bool;                 (* --extended *)
  arg_long : bool;                     (* --long *)
  arg_request : option string;         (* --request *)
  arg_outfile : option string;         (* --outfile *)
  arg_infile : string;                 (* --infile, default "<stdin>" *)
  arg_send : option string;            (* --send *)
  arg_target : bool; arg_host : bool; arg_devreset : bool;
  arg_raw_output : bool;               (* --raw *)
  arg_hex : bool;                      (* --hex *)
  arg_json : bool;                     (* --json *)
  arg_verbose : bool;                  (* --verbose *)
}.

(** ** The monad of the program: state, and exceptions that keep the state *)

Definition M (A : Type) : Type := World -> res A * World.

Definition ret {A} (a : A) : M A := fun w => (Ok a, w).

Definition bind {A B} (m : M A) (f : A -> M B) : M B :=
  fun w => match m w with
           | (Ok a, w') => f a w'
           | (Raise e, w') => (Raise e, w')
           end.

Definition raise {A} (e : exn) : M A := fun w => (Raise e, w).

Definition lift {A} (r : res A) : M A := fun w => (r, w).

Definition get : M World := fun w => (Ok w, w).

Definition modify (f : World -> World) : M unit := fun w => (Ok tt, f w).

#[global] Instance M_ret : MRet M := @ret.
#[global] Instance M_bind : MBind M := fun A B f m => bind m f.

(** [try: body finally: cleanup], the shape of leaving a [with] block. *)
Definition finally {A} (body : M A) (cleanup : World -> World) : M A :=
  fun w => let '(r, w') := body w in (r, cleanup w').

(** ** External collaborators

    The parts of other packages and of the sibling modules [formatters]
    and [executers] that the program calls: the formatter classes'
    [format], the encoders and generators of the protocol library, the
    device behind a channel, and the Linux reset and sd-to-sg helpers. *)
Class Externals := {
  (* formatter.format(value), for each formatter class *)
  format : formatter -> value -> string;
  (* command.execute(executer) of a command class of infi.asi.cdb *)
  library_execute : library_command -> coroutine;
  (* vpd_pages.get_vpd_page(n)() *)
  get_vpd_page : Z -> res library_command;
  (* infi.sgutils.sg_map.get_sg_from_sd(device) *)
  get_sg_from_sd : string -> res string;
  (* entering the block of an executer, after the events so far: the error
     it raises, if any *)
  executer_enter : executer -> list event -> option exn;
  (* the answer of the device to a channel call, after the events so far *)
  executer_call : executer -> list event -> scsi_op -> res string;
  (* a function of infi.sgutils.sg_reset: the error it raises, if any *)
  sg_reset : reset_kind -> string -> list event -> option exn;
  (* sys.maxint of the interpreter, the largest C long *)
  maxint : Z;
}.

(** Modelled from the spec: [restore] of the hexdump package is not under
    src/.  Section 4.1: it parses a sequence of hex-byte tokens or a
    single hex-dump string into a raw byte buffer, and malformed hex input
    fails with a FormatError (the program's [ValueError]).  White space
    separates the bytes and is otherwise ignored; every byte is two
    hexadecimal digits. *)
Fixpoint dehex (cs : list ascii) : option string :=
  match cs with
  | [] => Some EmptyString
  | hi :: lo :: rest =>
      match Py.digit_value hi, Py.digit_value lo, dehex rest with
      | Some h, Some l, Some bytes =>
          if (h <? 16) && (l <? 16) then Some (String (Py.chr (16 * h + l)) bytes)
          else None
      | _, _, _ => None
      end
  | [_] => None
  end.

Definition restore (dump : string) : res string :=
  match dehex (List.filter (fun c => negb (Py.is_space c)) (list_ascii_of_string dump)) with
  | Some bytes => Ok bytes
  | None => Raise (ValueError "malformed hex dump")
  end.

(** ** World accessors *)

Definition set_stdin (s : string) (w : World) : World :=
  mkWorld (platform w) s (files w) (stdout w) (stderr w) (ActiveOutputContext w) (events w).
Definition set_files (f : gmap string string) (w : World) : World :=
  mkWorld (platform w) (stdin w) f (stdout w) (stderr w) (ActiveOutputContext w) (events w).
Definition set_stdout (l : list string) (w : World) : World :=
  mkWorld (platform w) (stdin w) (files w) l (stderr w) (ActiveOutputContext w) (events w).
Definition set_stderr (l : list string) (w : World) : World :=
  mkWorld (platform w) (stdin w) (files w) (stdout w) l (ActiveOutputContext w) (events w).
Definition set_context (c : OutputContext) (w : World) : World :=
  mkWorld (platform w) (stdin w) (files w) (stdout w) (stderr w) c (events w).
Definition set_events (l : list event) (w : World) : World :=
  mkWorld (platform w) (stdin w) (files w) (stdout w) (stderr w) (ActiveOutputContext w) l.

Definition log (ev : event) : M unit :=
  modify (fun w => set_events (events w ++ [ev]) w).

(** [print(text, file=file)]. *)
Definition print (text : string) (file : stream) : M unit :=
  modify (fun w => match file with
                   | Stdout => set_stdout (stdout w ++ [text]) w
                   | Stderr => set_stderr (stderr w ++ [text]) w
                   end).

(** [str(error)], what [print(error, ...)] shows. *)
Definition str_of_exn (e : exn) : string :=
  match e with
  | ValueError msg | NotImplementedError msg | TypeError msg | IOError msg
  | AsiSCSIError msg | AsiOSError msg | OtherError _ msg => msg
  | AssertionError => ""
  | AsiCheckConditionError _ => ""
  | SystemExit code => Py.str_of_Z code
  end.

(** [sys.stdin.read(n)]. *)
Definition stdin_read (n : Z) : M string :=
  fun w => let '(got, rest) := Py.read n (stdin w) in (Ok got, set_stdin rest w).

(** [with open(name) as fd: fd.read(n)]. *)
Definition file_read (name : string) (n : Z) : M string :=
  fun w => match files w !! name with
           | Some contents => (Ok (fst (Py.read n contents)), w)
           | None => (Raise (IOError ("[Errno 2] No such file or directory: "
                                        +:+ Py.repr name)), w)
           end.

(** [open(name, 'w')] creates the file or empties it. *)
Definition open_truncate (name : string) : M unit :=
  modify (fun w => set_files (<[name := EmptyString]> (files w)) w).

(** [fd.write(result)] on a file just opened with [open_truncate]. *)
Definition file_write (name : string) (result : value) : M unit :=
  match result with
  | VStr s => modify (fun w => set_files (<[name := s]> (files w)) w)
  | _ => raise (TypeError "expected a character buffer object")
  end.

(** ** Reference readings, used to state the results *)

(** The number a run of decimal digits denotes, most significant first. *)
Fixpoint decimal_from (acc : Z) (s : string) : Z :=
  match s with
  | EmptyString => acc
  | String c s' => decimal_from (10 * acc + (Py.ord c - 48)) s'
  end.

Definition decimal_value (s : string) : Z := decimal_from 0 s.

(** The bytes of a [str], as numbers. *)
Definition byte_values (s : string) : list Z := map Py.ord (list_ascii_of_string s).

(** The token that spells a byte: two lower-case hexadecimal digits. *)
Definition hex_token (b : Z) : string :=
  String (Py.hex_digit (b / 16)) (String (Py.hex_digit (b mod 16)) EmptyString).

(** The channel calls a generator issues when every call is answered by
    [respond]. *)
Fixpoint sub_operations (respond : scsi_op -> string) (c : coroutine) : list scsi_op :=
  match c with
  | Final _ => []
  | Call op resume => op :: sub_operations respond (resume (respond op))
  end.

(** What the input source of a raw command holds: standard input, or the
    named file when there is one. *)
Definition input_source (input_file : string) (w : World) : option string :=
  if String.eqb input_file "<stdin>" then Some (stdin w) else files w !! input_file.

(** The text of the CDB handed to [restore]. *)
Definition cdb_text (cdb : cdb_argument) : string :=
  match cdb with
  | CdbList tokens => String.concat " " tokens
  | CdbStr dump => dump
  end.

(** The four operating-system families [asi_context] knows. *)
Definition recognised (platform : string) : bool :=
  existsb (Py.startswith platform) ["windows"; "linux"; "solaris"; "aix"].

(** The exceptions that end the process with status 1: every class but
    the check condition, which the handler reports and survives, and
    [SystemExit], which carries its own status. *)
Definition is_fatal (e : exn) : bool :=
  match e with
  | AsiCheckConditionError _ | SystemExit _ => false
  | _ => true
  end.

(** The operating-system family an executer belongs to. *)
Definition os_family (k : executer_kind) : string :=
  match k with
  | windows => "windows"
  | linux_sg | linux_dm => "linux"
  | solaris => "solaris"
  | aix => "aix"
  end.

(** A computation keeps an observation of the state when running it from
    any state leaves that observation as it was. *)
Definition keeps {X A : Type} (observe : World -> X) (m : M A) : Prop :=
  forall w, observe (snd (m w)) = observe w.


(** The classes the two printing [except] clauses of the handler name. *)
Definition handled (e : exn) : bool :=
  match e with
  | ValueError _ | NotImplementedError _ | AsiOSError _ | AsiSCSIError _ => true
  | _ => false
  end.

(** The number a run of hexadecimal digits denotes. *)
Definition is_hex_digit (c : ascii) : bool :=
  match Py.digit_value c with
  | Some d => d <? 16
  | None => false
  end.

Fixpoint hex_from (acc : Z) (s : string) : Z :=
  match s with
  | EmptyString => acc
  | String c s' => hex_from (16 * acc + default 0 (Py.digit_value c)) s'
  end.

Definition hex_value (s : string) : Z := hex_from 0 s.

(** The reset the flags ask for, in the order [reset] tests them. *)
Definition reset_choice (target host lun : bool) : option reset_kind :=
  if target then Some target_reset
  else if host then Some host_reset
  else if lun then Some lun_reset
  else None.

Definition stream_of (file : stream) (w : World) : list string :=
  match file with Stdout => stdout w | Stderr => stderr w end.

(** ** The program *)
Section Program.
Context `{Externals}.

(** *** class OutputContext, on the module-level instance *)

Definition enable_verbose : M unit :=
  modify (fun w => let c := ActiveOutputContext w in
    set_context (mkOutputContext true (_command_formatter c) (_result_formatter c)) w).

Definition set_command_formatter (f : formatter) : M unit :=
  modify (fun w => let c := ActiveOutputContext w in
    set_context (mkOutputContext (_verbose c) f (_result_formatter c)) w).

Definition set_result_formatter (f : formatter) : M unit :=
  modify (fun w => let c := ActiveOutputContext w in
    set_context (mkOutputContext (_verbose c) (_command_formatter c) f) w).

Definition OutputContext_set_formatters (f : formatter) : M unit :=
  set_command_formatter f;;
  set_result_formatter f.

Definition _print (text : string) (file : stream) : M unit := print text file.

Definition output_command (c : command) (file : stream) : M unit :=
  w ← get;
  if negb (_verbose (ActiveOutputContext w)) then mret tt
  else _print (format (_command_formatter (ActiveOutputContext w)) (VCommand c)) file.

Definition output_result (result : value) (file : stream) : M unit :=
  w ← get;
  _print (format (_result_formatter (ActiveOutputContext w)) result) file.

Definition output_error (result : value) (file : stream) : M unit :=
  _print (format ErrorOutputFormatter result) file.

(** *** exception_handler

    [Some a] is [return func(...)]; [None] is the wrapper running off its
    end after the first [except] clause. *)
Definition exception_handler {A} (func : M A) : M (option A) :=
  fun w =>
    match func w with
    | (Ok a, w') => (Ok (Some a), w')
    | (Raise (AsiCheckConditionError sense_obj), w') =>
        (output_error (VObject sense_obj) Stderr;; mret None) w'
    | (Raise (ValueError _ as error), w')
    | (Raise (NotImplementedError _ as error), w') =>
        (print (str_of_exn error) Stderr;; raise (SystemExit 1)) w'
    | (Raise (AsiOSError _ as error), w')
    | (Raise (AsiSCSIError _ as error), w') =>
        (print (str_of_exn error) Stderr;; raise (SystemExit 1)) w'
    | (Raise e, w') => (Raise e, w')
    end.

(** The status the interpreter ends the process with: 0 when the entry
    point returns, the code of a [SystemExit], and 1 (after printing the
    traceback) for any other exception that nothing caught. *)
Definition exit_status {A} (r : res A) : Z :=
  match r with
  | Ok _ => 0
  | Raise (SystemExit code) => code
  | Raise _ => 1
  end.

(** *** asi_context *)

(** Modelled from the spec: the context managers of the sibling module
    [executers] are not under src/.  Section 4.2: the channel is a scoped
    resource, acquired when the block is entered and released when it is
    left, whether the block succeeded or raised. *)
Definition with_executer {A} (e : executer) (body : executer -> M A) : M A :=
  w ← get;
  match executer_enter e (events w) with
  | Some error => raise error
  | None => log (Opened e);; finally (body e) (fun w => set_events (events w ++ [Closed e]) w)
  end.

Definition asi_context {A} (device : string) (body : executer -> M A) : M A :=
  w ← get;
  let platform := platform w in
  if Py.startswith platform "windows" then
    with_executer (mkExecuter windows device) body
  else if Py.startswith platform "linux" then
    device ← (if Py.startswith device "/dev/sd" then lift (get_sg_from_sd device)
              else mret device);
    with_executer
      (mkExecuter (if Py.startswith device "/dev/sg" then linux_sg else linux_dm) device)
      body
  else if Py.startswith platform "solaris" then
    with_executer (mkExecuter solaris device) body
  else if Py.startswith platform "aix" then
    with_executer (mkExecuter aix device) body
  else raise (NotImplementedError "this platform is not supported").

(** *** sync_wait *)

(** [executer.call(op)]: the call reaches the device, which answers with a
    datagram or raises. *)
Definition call (e : executer) (op : scsi_op) : M string :=
  w ← get;
  log (Called e op);;
  lift (executer_call e (events w) op).

(** Modelled from the spec: the driver loop [sync_wait] of
    infi.asi.coroutines.sync_adapter is not under src/.  Section 4.3: the
    command produces a sequence of channel calls, the bridge supplies the
    result of each and resumes the command, until the command signals
    completion with a final value; an error raised at a call propagates
    unchanged. *)
Fixpoint _sync_wait (e : executer) (c : coroutine) : M value :=
  match c with
  | Final v => mret v
  | Call op resume => result_datagram ← call e op; _sync_wait e (resume result_datagram)
  end.

Definition create_datagram (c : CDB) : string := cdb_raw c.

(** [CDB.execute]. *)
Definition CDB_execute (c : CDB) : coroutine :=
  let datagram := create_datagram c in
  if Py.truthy (send_length c) then
    Call (SCSIWriteCommand datagram (data c))
         (fun result_datagram => Final (VStr result_datagram))
  else
    Call (SCSIReadCommand datagram (request_length c))
         (fun result_datagram => Final (VStr result_datagram)).

Definition execute (c : command) : coroutine :=
  match c with
  | Raw c => CDB_execute c
  | Library c => library_execute c
  end.

Definition sync_wait (asi : executer) (c : command) (supresss_output : bool) : M value :=
  output_command c Stdout;;
  result ← _sync_wait asi (execute c);
  (if negb supresss_output then output_result result Stdout else mret tt);;
  mret result.

(** *** The command families *)

(** [xrange(n)]: the bound must fit a C long, else [OverflowError]; the
    number of iterations is n, or none when n is not positive. *)
Definition xrange (n : Z) : res nat :=
  if (- maxint - 1 <=? n) && (n <=? maxint) then Ok (Z.to_nat n)
  else Raise (OtherError "OverflowError" "Python int too large to convert to C long").

(** [for i in xrange(...): body], by the number of iterations. *)
Fixpoint for_xrange (n : nat) (body : M unit) : M unit :=
  match n with
  | O => mret tt
  | S n' => body;; for_xrange n' body
  end.

Definition turs (device : string) (number : string) : M unit :=
  asi_context device (fun asi =>
    count ← lift (Py.int number 10);
    times ← lift (xrange count);
    for_xrange times
      (sync_wait asi (Library TestUnitReadyCommand) false;; mret tt)).

(** [vpd_pages.get_vpd_page(n)()] is one external step giving an instance
    or raising, so the later test [command is None] never holds. *)
Definition inq (device : string) (page : option string) : M unit :=
  c ← match page with
      | None => mret (StandardInquiryCommand 219)
      | Some page =>
          if Py.isdigit page then
            n ← lift (Py.int page 10); lift (get_vpd_page n)
          else if Py.startswith page "0x" then
            n ← lift (Py.int page 16); lift (get_vpd_page n)
          else raise (ValueError ("invalid vpd page: " +:+ page))
      end;
  asi_context device (fun asi => sync_wait asi (Library c) false;; mret tt).

Definition luns (device : string) (select_report : string) : M unit :=
  n ← lift (Py.int select_report 10);
  asi_context device (fun asi =>
    sync_wait asi (Library (ReportLunsCommand n)) false;; mret tt).

Definition rtpg (device : string) (extended : bool) : M unit :=
  let data_format := if extended then 1 else 0 in
  asi_context device (fun asi =>
    sync_wait asi (Library (RTPGCommand data_format)) false;; mret tt).

Definition readcap (device : string) (read_16 : bool) : M unit :=
  let c := if read_16 then ReadCapacity16Command else ReadCapacity10Command in
  asi_context device (fun asi => sync_wait asi (Library c) false;; mret tt).

(** The chain the source writes out for the request length, the send
    length and the log page; the three copies differ in the text of the
    error only:
<<
    if x is None: x = 0
    elif x.isdigit(): x = int(x)
    elif x.startswith('0x'): x = int(x, 16)
    else: raise ValueError(message % x)
>> *)
Definition resolve (message : string) (x : option string) : res Z :=
  match x with
  | None => Ok 0
  | Some x =>
      if Py.isdigit x then Py.int x 10
      else if Py.startswith x "0x" then Py.int x 16
      else Raise (ValueError (message +:+ x))
  end.

Definition build_raw_command (cdb : cdb_argument) (request_length : option string)
    (output_file : option string) (send_length : option string) (input_file : string)
    : M CDB :=
  cdb_raw ← lift (restore (match cdb with
                           | CdbList tokens => String.concat " " tokens
                           | CdbStr dump => dump
                           end));
  request_length ← lift (resolve "invalid request length: " request_length);
  send_length ← lift (resolve "invalid send length: " send_length);
  data ← (if Py.truthy send_length then
            if String.eqb input_file "<stdin>" then stdin_read send_length
            else file_read input_file send_length
          else mret EmptyString);
  if Py.len data =? send_length then mret (mkCDB cdb_raw request_length send_length data)
  else raise AssertionError.

(** [if output_file:] holds for a non-empty name. *)
Definition given (output_file : option string) : option string :=
  match output_file with
  | Some EmptyString | None => None
  | Some name => Some name
  end.

Definition raw (device : string) (cdb : cdb_argument) (request_length : option string)
    (output_file : option string) (send_length : option string) (input_file : string)
    : M unit :=
  c ← build_raw_command cdb request_length output_file send_length input_file;
  asi_context device (fun asi =>
    result ← sync_wait asi (Raw c) true;
    match given output_file with
    | Some name => open_truncate name;; file_write name result
    | None => mret tt
    end).

Definition logs (device : string) (page : option string) : M unit :=
  page ← lift (resolve "invalid vpd page: " page);
  asi_context device (fun asi =>
    sync_wait asi (Library (LogSenseCommand page)) false;; mret tt).

(** One function of [infi.sgutils.sg_reset]. *)
Definition sg_reset_call (k : reset_kind) (device : string) : M unit :=
  w ← get;
  log (Reset k device);;
  match sg_reset k device (events w) with
  | Some error => raise error
  | None => mret tt
  end.

Definition reset (device : string) (target host lun : bool) : M unit :=
  w ← get;
  if Py.startswith (platform w) "linux" then
    if target then sg_reset_call target_reset device
    else if host then sg_reset_call host_reset device
    else if lun then sg_reset_call lun_reset device
    else mret tt
  else raise (NotImplementedError "task management commands not supported on this platform").

Definition set_formatters (arguments : Arguments) : M unit :=
  (if arg_readcap arguments then set_result_formatter ReadcapOutputFormatter
   else if arg_luns arguments then set_result_formatter LunsOutputFormatter
   else if arg_rtpg arguments then set_result_formatter RtpgOutputFormatter
   else mret tt);;
  (if arg_hex arguments then OutputContext_set_formatters HexOutputFormatter
   else if arg_raw_output arguments then OutputContext_set_formatters RawOutputFormatter
   else if arg_json arguments then OutputContext_set_formatters JsonOutputFormatter
   else mret tt).

(** The body of [main], from the dictionary docopt returned. *)
Definition main_body (arguments : Arguments) : M unit :=
  (if arg_verbose arguments then enable_verbose else mret tt);;
  set_formatters arguments;;
  if arg_turs arguments then turs (arg_device arguments) (arg_number arguments)
  else if arg_inq arguments then inq (arg_device arguments) (arg_page arguments)
  else if arg_luns arguments then luns (arg_device arguments) (arg_select arguments)
  else if arg_rtpg arguments then rtpg (arg_device arguments) (arg_extended arguments)
  else if arg_readcap arguments then readcap (arg_device arguments) (arg_long arguments)
  else if arg_raw arguments then
    raw (arg_device arguments) (arg_cdb arguments) (arg_request arguments)
        (arg_outfile arguments) (arg_send arguments) (arg_infile arguments)
  else if arg_logs arguments then logs (arg_device arguments) (arg_page arguments)
  else if arg_reset arguments then
    reset (arg_device arguments) (arg_target arguments) (arg_host arguments)
          (arg_devreset arguments)
  else mret tt.

(** [main], decorated with [exception_handler]. *)
Definition main (arguments : Arguments) : M (option unit) :=
  exception_handler (main_body arguments).

(** *** Readings of the program, used to state the results *)

(** The context [set_formatters] leaves, from the one it found. *)
Definition selected_formatters (arguments : Arguments) (before : OutputContext) : OutputContext :=
  let family :=
    if arg_readcap arguments then ReadcapOutputFormatter
    else if arg_luns arguments then LunsOutputFormatter
    else if arg_rtpg arguments then RtpgOutputFormatter
    else _result_formatter before in
  if arg_hex arguments then mkOutputContext (_verbose before) HexOutputFormatter HexOutputFormatter
  else if arg_raw_output arguments then
    mkOutputContext (_verbose before) RawOutputFormatter RawOutputFormatter
  else if arg_json arguments then
    mkOutputContext (_verbose before) JsonOutputFormatter JsonOutputFormatter
  else mkOutputContext (_verbose before) (_command_formatter before) family.

(** The branch of [main] the dictionary selects. *)
Inductive family := Turs | Inq | Luns | Rtpg | Readcap | RawFamily | Logs | ResetFamily | NoFamily.

Definition family_of (a : Arguments) : family :=
  if arg_turs a then Turs else if arg_inq a then Inq else if arg_luns a then Luns
  else if arg_rtpg a then Rtpg else if arg_readcap a then Readcap
  else if arg_raw a then RawFamily else if arg_logs a then Logs
  else if arg_reset a then ResetFamily else NoFamily.

Definition dispatch (a : Arguments) : M unit :=
  match family_of a with
  | Turs => turs (arg_device a) (arg_number a)
  | Inq => inq (arg_device a) (arg_page a)
  | Luns => luns (arg_device a) (arg_select a)
  | Rtpg => rtpg (arg_device a) (arg_extended a)
  | Readcap => readcap (arg_device a) (arg_long a)
  | RawFamily => raw (arg_device a) (arg_cdb a) (arg_request a) (arg_outfile a) (arg_send a) (arg_infile a)
  | Logs => logs (arg_device a) (arg_page a)
  | ResetFamily => reset (arg_device a) (arg_target a) (arg_host a) (arg_devreset a)
  | NoFamily => mret tt
  end.

(** The library command a single-command family builds from the
    dictionary, or the error building it raises. *)
Definition family_command (a : Arguments) : res library_command :=
  match family_of a with
  | Inq =>
      match arg_page a with
      | None => Ok (StandardInquiryCommand 219)
      | Some page =>
          if Py.isdigit page then
            match Py.int page 10 with Ok n => get_vpd_page n | Raise e => Raise e end
          else if Py.startswith page "0x" then
            match Py.int page 16 with Ok n => get_vpd_page n | Raise e => Raise e end
          else Raise (ValueError ("invalid vpd page: " +:+ page))
      end
  | Luns =>
      match Py.int (arg_select a) 10 with
      | Ok n => Ok (ReportLunsCommand n)
      | Raise e => Raise e
      end
  | Rtpg => Ok (RTPGCommand (if arg_extended a then 1 else 0))
  | Readcap => Ok (if arg_long a then ReadCapacity16Command else ReadCapacity10Command)
  | Logs =>
      match resolve "invalid vpd page: " (arg_page a) with
      | Ok n => Ok (LogSenseCommand n)
      | Raise e => Raise e
      end
  | _ => Raise (OtherError "LookupError" "not a single-command family")
  end.

(** The context after the first two statements of [main]. *)
Definition configured (a : Arguments) (before : OutputContext) : OutputContext :=
  selected_formatters a
    (if arg_verbose a then mkOutputContext true (_command_formatter before) (_result_formatter before)
     else before).

(** The one channel call of a raw command, and the echo of a command by
    [output_command]. *)
Definition raw_operation (c : CDB) : scsi_op :=
  if 0 <? send_length c then SCSIWriteCommand (create_datagram c) (data c)
  else SCSIReadCommand (create_datagram c) (request_length c).

Definition echo (c : command) (w : World) : World :=
  if _verbose (ActiveOutputContext w)
  then set_stdout (stdout w ++ [format (_command_formatter (ActiveOutputContext w)) (VCommand c)]) w
  else w.

End Program.

Arguments Py.startswith : simpl never.

(** ** A concrete setting, for examples *)

(** A device that accepts every channel and answers every call with the
    same four bytes; formatters that name themselves. *)
Definition formatter_name (f : formatter) : string :=
  match f with
  | DefaultOutputFormatter => "default"
  | ErrorOutputFormatter => "error"
  | ReadcapOutputFormatter => "readcap"
  | LunsOutputFormatter => "luns"
  | RtpgOutputFormatter => "rtpg"
  | HexOutputFormatter => "hex"
  | RawOutputFormatter => "raw"
  | JsonOutputFormatter => "json"
  end.

Definition example_externals : Externals := {|
  format := fun f v => formatter_name f +:+ ":" +:+
                       match v with
                       | VStr s => s
                       | VNone => "None"
                       | VCommand _ => "<command>"
                       | VObject _ => "<object>"
                       end;
  library_execute := fun c => Call (SCSIReadCommand "" 0) (fun d => Final (VStr d));
  get_vpd_page := fun n => Ok (VpdPageCommand n);
  get_sg_from_sd := fun _ => Ok "/dev/sg0";
  executer_enter := fun _ _ => None;
  executer_call := fun _ _ _ => Ok "DATA";
  sg_reset := fun _ _ _ => None;
  maxint := 2 ^ 63 - 1;
|}.

(** A device that reports a check condition on every call. *)
Definition failing_externals : Externals := {|
  format := @format example_externals;
  library_execute := @library_execute example_externals;
  get_vpd_page := @get_vpd_page example_externals;
  get_sg_from_sd := @get_sg_from_sd example_externals;
  executer_enter := fun _ _ => None;
  executer_call := fun _ _ _ => Raise (AsiCheckConditionError 7%N);
  sg_reset := fun _ _ _ => None;
  maxint := 2 ^ 63 - 1;
|}.

Definition example_world (platform stdin : string) : World :=
  {| platform := platform; stdin := stdin; files := {[ "in.bin" := "wxyz" ]};
     stdout := []; stderr := []; ActiveOutputContext := OutputContext_init;
     events := [] |}.

(** [asi-utils raw /dev/sg0 12 00 00 00 00 00 --request=0x24]. *)
Definition raw_arguments (request send outfile : option string) (infile : string) : Arguments :=
  {| arg_turs := false; arg_inq := false; arg_luns := false; arg_rtpg := false;
     arg_readcap := false; arg_raw := true; arg_logs := false; arg_reset := false;
     arg_device := "/dev/sg0"; arg_cdb := CdbList ["12"; "00"; "00"; "00"; "00"; "00"];
     arg_number := "1"; arg_page := None; arg_select := "0";
     arg_extended := false; arg_long := false;
     arg_request := request; arg_outfile := outfile; arg_infile := infile; arg_send := send;
     arg_target := false; arg_host := false; arg_devreset := false;
     arg_raw_output := false; arg_hex := false; arg_json := false; arg_verbose := false |}.

(** [asi-utils readcap /dev/sg0], [asi-utils inq /dev/sg0 --page=PG] and
    the like: one family flag, a page and a select-report value. *)
Definition family_arguments (f : family) (page : option string) (select : string)
    (verbose hex : bool) : Arguments :=
  {| arg_turs := match f with Turs => true | _ => false end;
     arg_inq := match f with Inq => true | _ => false end;
     arg_luns := match f with Luns => true | _ => false end;
     arg_rtpg := match f with Rtpg => true | _ => false end;
     arg_readcap := match f with Readcap => true | _ => false end;
     arg_raw := match f with RawFamily => true | _ => false end;
     arg_logs := match f with Logs => true | _ => false end;
     arg_reset := match f with ResetFamily => true | _ => false end;
     arg_device := "/dev/sg0"; arg_cdb := CdbList [];
     arg_number := "1"; arg_page := page; arg_select := select;
     arg_extended := false; arg_long := false;
     arg_request := None; arg_outfile := None; arg_infile := "<stdin>"; arg_send := None;
     arg_target := false; arg_host := false; arg_devreset := false;
     arg_raw_output := false; arg_hex := hex; arg_json := false; arg_verbose := verbose |}.

(** [asi-utils reset /dev/sg0]. *)
Definition reset_arguments (target host device : bool) : Arguments :=
  {| arg_turs := false; arg_inq := false; arg_luns := false; arg_rtpg := false;
     arg_readcap := false; arg_raw := false; arg_logs := false; arg_reset := true;
     arg_device := "/dev/sg0"; arg_cdb := CdbList [];
     arg_number := "1"; arg_page := None; arg_select := "0";
     arg_extended := false; arg_long := false;
     arg_request := None; arg_outfile := None; arg_infile := "<stdin>"; arg_send := None;
     arg_target := target; arg_host := host; arg_devreset := device;
     arg_raw_output := false; arg_hex := false; arg_json := false; arg_verbose := false |}.

(** * Results *)

(** ** The builtins *)

Lemma digit_is_digit c :
  Py.is_digit c = true -> Py.digit_value c = Some (Py.ord c - 48) /\ 0 <= Py.ord c - 48 < 10.
Proof.
  unfold Py.is_digit, Py.digit_value. intros Hd.
  apply andb_true_iff in Hd as [H1 H2]. rewrite H1, H2. simpl. split; [done | lia].
Qed.

Lemma digit_value_nonneg c d : Py.digit_value c = Some d -> 0 <= d.
Proof.
  unfold Py.digit_value. intros Hd.
  repeat match type of Hd with
         | context [if ?b then _ else _] => destruct b eqn:?
         end; simplify_eq; lia.
Qed.

Lemma scan_digits_nonneg base s : forall acc n v m rest,
  0 <= base -> 0 <= acc ->
  Py.scan_digits base acc n s = (v, m, rest) -> 0 <= v.
Proof.
  induction s as [|c s IH]; intros acc n v m rest Hb Ha Hs; simpl in Hs.
  - by simplify_eq.
  - destruct (Py.digit_value c) as [d|] eqn:Hd; [|by simplify_eq].
    destruct (d <? base) eqn:Hlt; [|by simplify_eq].
    apply IH in Hs; [done..|]. apply digit_value_nonneg in Hd. nia.
Qed.

Lemma scan_digits_all s : forall acc n,
  forallb Py.is_digit (list_ascii_of_string s) = true ->
  Py.scan_digits 10 acc n s = (decimal_from acc s, (n + String.length s)%nat, EmptyString).
Proof.
  induction s as [|c s IH]; intros acc n Hall; simpl in *.
  - by rewrite Nat.add_0_r.
  - apply andb_true_iff in Hall as [Hc Hall].
    destruct (digit_is_digit c Hc) as [-> Hr].
    replace (Py.ord c - 48 <? 10) with true by (symmetry; apply Z.ltb_lt; lia).
    rewrite IH by done. do 2 f_equal; [f_equal; lia | lia].
Qed.

Lemma decimal_from_nonneg s : forall acc,
  forallb Py.is_digit (list_ascii_of_string s) = true -> 0 <= acc -> 0 <= decimal_from acc s.
Proof.
  induction s as [|c s IH]; intros acc Hall Ha; simpl in *; [done|].
  apply andb_true_iff in Hall as [Hc Hall].
  apply IH; [done|]. destruct (digit_is_digit c Hc). lia.
Qed.

Lemma digit_leads_literal c s :
  Py.is_digit c = true ->
  Py.split_sign (Py.lstrip (String c s)) = (1, String c s).
Proof.
  intros Hc. destruct c as [[] [] [] [] [] [] [] []]; try discriminate Hc; reflexivity.
Qed.

Lemma int_literal_isdigit s :
  Py.isdigit s = true -> Py.int_literal s 10 = Some (decimal_value s).
Proof.
  destruct s as [|c s]; [done|]. intros Hall.
  unfold Py.isdigit in Hall. pose proof Hall as Hall'. simpl in Hall'.
  apply andb_true_iff in Hall' as [Hc _].
  unfold Py.int_literal. rewrite (digit_leads_literal c s Hc).
  assert (Py.strip_radix_prefix 10 (String c s) = String c s) as ->.
  { unfold Py.strip_radix_prefix. destruct c as [[] [] [] [] [] [] [] []]; try reflexivity.
    by destruct s. }
  rewrite scan_digits_all by done. simpl.
  unfold decimal_value. simpl. f_equal. lia.
Qed.

Lemma int_isdigit s :
  Py.isdigit s = true -> Py.int s 10 = Ok (decimal_value s) /\ 0 <= decimal_value s.
Proof.
  intros Hd. unfold Py.int. rewrite int_literal_isdigit by done. split; [done|].
  destruct s as [|c s]; [done|]. by apply decimal_from_nonneg.
Qed.


Lemma startswith_0x s :
  Py.startswith s "0x" = true -> exists rest, s = String "0" (String "x" rest).
Proof.
  unfold Py.startswith. intros Hp%String.prefix_correct.
  destruct s as [|a [|b rest]]; try discriminate Hp.
  cbn [String.length String.substring] in Hp.
  injection Hp as -> -> _. eauto.
Qed.

Lemma int_hex_nonneg s v :
  Py.startswith s "0x" = true -> Py.int s 16 = Ok v -> 0 <= v.
Proof.
  intros [rest ->]%startswith_0x. unfold Py.int, Py.int_literal. simpl.
  destruct (Py.scan_digits 16 0 0 rest) as [[u n] r] eqn:Hs.
  apply scan_digits_nonneg in Hs; [|lia..].
  destruct n; [done|]. destruct (Py.lstrip r); [|done].
  intros ?; simplify_eq. lia.
Qed.

Lemma read_length n s :
  0 <= n -> Py.len (fst (Py.read n s)) = Z.min n (Py.len s).
Proof.
  intros Hn. unfold Py.read, Py.len. simpl.
  assert (forall k t, String.length (String.substring 0 k t) = Nat.min k (String.length t)) as Hlen.
  { induction k as [|k IH]; intros [|c t]; simpl; try done. by rewrite IH. }
  rewrite Hlen. lia.
Qed.

Lemma resolve_nonneg message x v : resolve message x = Ok v -> 0 <= v.
Proof.
  destruct x as [s|]; simpl; [|intros ?; simplify_eq; lia].
  destruct (Py.isdigit s) eqn:Hd.
  - destruct (int_isdigit s Hd) as [-> ?]. intros ?; by simplify_eq.
  - destruct (Py.startswith s "0x") eqn:Hx; [|done]. by apply int_hex_nonneg.
Qed.

(** ** Sanity checks of the model on concrete inputs *)

Example int_hex : Py.int "0x10" 16 = Ok 16.
Proof. reflexivity. Qed.

Example int_decimal : Py.int "36" 10 = Ok 36.
Proof. reflexivity. Qed.

Example int_bare_prefix :
  Py.int "0x" 16 = Raise (ValueError "invalid literal for int() with base 16: '0x'").
Proof. reflexivity. Qed.

Example resolve_hex : resolve "invalid request length: " (Some "0x10") = Ok 16.
Proof. reflexivity. Qed.

Example resolve_word :
  resolve "invalid request length: " (Some "abc") = Raise (ValueError "invalid request length: abc").
Proof. reflexivity. Qed.

Example read_short : Py.read 10 "abcd" = ("abcd", "").
Proof. reflexivity. Qed.

Example read_part : Py.read 2 "abcd" = ("ab", "cd").
Proof. reflexivity. Qed.

Example tokens_of_bytes : map hex_token [0x12; 0x34] = ["12"; "34"].
Proof. reflexivity. Qed.

Example restore_two_tokens :
  restore "12 34" = Ok (String (Py.chr 0x12) (String (Py.chr 0x34) EmptyString)).
Proof. reflexivity. Qed.

Example restore_malformed : restore "12 3" = Raise (ValueError "malformed hex dump").
Proof. reflexivity. Qed.

Section Results.
Context `{Externals}.

Tactic Notation "world_simpl" "in" hyp(H) :=
  cbn [platform stdin files stdout stderr ActiveOutputContext events
       set_stdin set_files set_stdout set_stderr set_context set_events] in H.
Tactic Notation "world_simpl" :=
  cbn [platform stdin files stdout stderr ActiveOutputContext events
       set_stdin set_files set_stdout set_stderr set_context set_events].

Ltac unfold_monad :=
  unfold mbind, M_bind, bind, mret, M_ret, ret, lift, raise, get, modify in *.

(** ** The builder, the bridge and the resolver, step by step *)

(** What a successful construction went through. *)
Lemma build_raw_command_inv cdb request output_file send input_file w c w' :
  build_raw_command cdb request output_file send input_file w = (Ok c, w') ->
  exists raw R N,
    restore (cdb_text cdb) = Ok raw /\
    resolve "invalid request length: " request = Ok R /\
    resolve "invalid send length: " send = Ok N /\
    c = mkCDB raw R N (data c) /\ Py.len (data c) = N /\
    ((N = 0 /\ data c = "" /\ w' = w) \/
     (0 < N /\ exists source, input_source input_file w = Some source /\
        data c = fst (Py.read N source) /\
        w' = if String.eqb input_file "<stdin>" then set_stdin (snd (Py.read N source)) w else w)).
Proof.
  unfold build_raw_command, cdb_text. unfold_monad.
  destruct (restore _) as [raw|]; [|done].
  destruct (resolve _ request) as [R|]; [|done].
  destruct (resolve _ send) as [N|] eqn:HN; [|done].
  apply resolve_nonneg in HN.
  intros Hb. exists raw, R, N.
  assert (exists d, c = mkCDB raw R N d /\ Py.len d = N /\
            ((N = 0 /\ d = "" /\ w' = w) \/
             (0 < N /\ exists source, input_source input_file w = Some source /\
                d = fst (Py.read N source) /\
                w' = if String.eqb input_file "<stdin>"
                     then set_stdin (snd (Py.read N source)) w else w)))
    as (d & -> & Hlen & Hcases); [|by simpl].
  unfold Py.truthy, input_source in *.
  destruct (N =? 0) eqn:HN0; simpl in Hb.
  - apply Z.eqb_eq in HN0 as ->. simplify_eq. exists "". split_and!; [done..|]. by left.
  - apply Z.eqb_neq in HN0.
    destruct (String.eqb input_file "<stdin>") eqn:Hin.
    + unfold stdin_read in Hb. destruct (Py.read N (stdin w)) as [got rest] eqn:Hr.
      destruct (Py.len got =? N) eqn:Hl; [|done]. apply Z.eqb_eq in Hl. simplify_eq.
      exists got. split_and!; [done..|]. right. split; [lia|].
      exists (stdin w). by rewrite Hr.
    + unfold file_read in Hb. destruct (files w !! input_file) as [contents|] eqn:Hf; [|done].
      destruct (Py.len _ =? N) eqn:Hl; [|done]. apply Z.eqb_eq in Hl. simplify_eq.
      eexists. split_and!; [done..|]. right. split; [lia|]. by exists contents.
Qed.

(** Construction touches standard input and nothing else: no channel
    event, no output, no file, whether it succeeds or fails. *)
Lemma build_raw_command_quiet cdb request output_file send input_file w :
  let w' := snd (build_raw_command cdb request output_file send input_file w) in
  events w' = events w /\ stdout w' = stdout w /\ stderr w' = stderr w /\
  files w' = files w /\ ActiveOutputContext w' = ActiveOutputContext w /\
  platform w' = platform w.
Proof.
  unfold build_raw_command, cdb_text. unfold_monad.
  destruct (restore _) as [raw|]; [|done].
  destruct (resolve _ request) as [R|]; [|done].
  destruct (resolve _ send) as [N|] eqn:HN; [|done].
  destruct (Py.truthy N); simpl.
  - destruct (String.eqb input_file "<stdin>").
    + unfold stdin_read. destruct (Py.read N (stdin w)) as [got rest].
      by destruct (Py.len got =? N).
    + unfold file_read. destruct (files w !! input_file); [|done].
      by destruct (Py.len _ =? N).
  - by destruct N.
Qed.

(** [set_formatters] and the first statements of [main] only configure the
    output context; [main] then runs the branch of the selected family. *)
Lemma set_formatters_spec arguments w :
  set_formatters arguments w =
    (Ok tt, set_context (selected_formatters arguments (ActiveOutputContext w)) w).
Proof.
  unfold set_formatters, selected_formatters, OutputContext_set_formatters,
    set_command_formatter, set_result_formatter.
  unfold_monad. destruct w as [p i f o e [v cf rf] ev].
  destruct (arg_readcap arguments), (arg_luns arguments), (arg_rtpg arguments),
    (arg_hex arguments), (arg_raw_output arguments), (arg_json arguments); reflexivity.
Qed.

Lemma main_body_dispatch a w :
  main_body a w = dispatch a (set_context (configured a (ActiveOutputContext w)) w).
Proof.
  unfold main_body. unfold mbind at 1 2, M_bind, bind.
  assert ((if arg_verbose a then enable_verbose else mret ()) w =
          (Ok tt, set_context (if arg_verbose a
             then mkOutputContext true (_command_formatter (ActiveOutputContext w))
                                       (_result_formatter (ActiveOutputContext w))
             else ActiveOutputContext w) w)) as ->.
  { destruct (arg_verbose a); [done|]. by destruct w. }
  rewrite set_formatters_spec. unfold dispatch, family_of, configured.
  destruct w; simpl.
  by destruct (arg_turs a), (arg_inq a), (arg_luns a), (arg_rtpg a), (arg_readcap a),
    (arg_raw a), (arg_logs a), (arg_reset a).
Qed.

(** A raw command makes one channel call and yields its answer. *)
Lemma CDB_execute_operation c :
  0 <= send_length c ->
  CDB_execute c = Call (raw_operation c) (fun result_datagram => Final (VStr result_datagram)).
Proof.
  intros Hs. unfold CDB_execute, raw_operation, Py.truthy.
  destruct (send_length c =? 0) eqn:H0; simpl.
  - apply Z.eqb_eq in H0. rewrite H0. done.
  - apply Z.eqb_neq in H0. by replace (0 <? send_length c) with true by (symmetry; apply Z.ltb_lt; lia).
Qed.

Lemma sync_wait_raw asi c w :
  0 <= send_length c ->
  sync_wait asi (Raw c) true w =
    (match executer_call asi (events (echo (Raw c) w)) (raw_operation c) with
     | Ok d => Ok (VStr d)
     | Raise e => Raise e
     end,
     set_events (events w ++ [Called asi (raw_operation c)]) (echo (Raw c) w)).
Proof.
  intros Hs. unfold sync_wait, output_command, _print, print, echo. simpl execute.
  rewrite CDB_execute_operation by done. simpl. unfold call, log. unfold_monad.
  destruct (_verbose (ActiveOutputContext w)); simpl;
    by destruct (executer_call _ _ _).
Qed.

(** Leaving [asi_context]: either nothing happened to the state and an
    error came out, or the block ran on an open channel that was closed
    afterwards. *)
Lemma with_executer_inv {A} e (body : executer -> M A) w r w' :
  with_executer e body w = (r, w') ->
  (exists err, r = Raise err /\ w' = w) \/
  (exists w'',
     executer_enter e (events w) = None /\
     body e (set_events (events w ++ [Opened e]) w) = (r, w'') /\
     w' = set_events (events w'' ++ [Closed e]) w'').
Proof.
  unfold with_executer, finally, log. unfold_monad.
  destruct (executer_enter e (events w)) as [err|] eqn:He.
  - intros ?; simplify_eq. left; eauto.
  - destruct (body e _) as [r1 w1] eqn:Hb. intros ?; simplify_eq. right; eauto.
Qed.

(** Whenever [asi_context] runs its block, it does so on a channel of the
    family the platform name starts with. *)
Lemma asi_context_family {A} device (body : executer -> M A) w r w' :
  asi_context device body w = (r, w') ->
  (exists err, r = Raise err /\ w' = w) \/
  (exists e w'',
     Py.startswith (platform w) (os_family (ex_kind e)) = true /\
     executer_enter e (events w) = None /\
     body e (set_events (events w ++ [Opened e]) w) = (r, w'') /\
     w' = set_events (events w'' ++ [Closed e]) w'').
Proof.
  assert (forall e, Py.startswith (platform w) (os_family (ex_kind e)) = true ->
            with_executer e body w = (r, w') ->
            (exists err, r = Raise err /\ w' = w) \/
            (exists e w'',
               Py.startswith (platform w) (os_family (ex_kind e)) = true /\
               executer_enter e (events w) = None /\
               body e (set_events (events w ++ [Opened e]) w) = (r, w'') /\
               w' = set_events (events w'' ++ [Closed e]) w'')) as Hwith.
  { intros e Hfam [?|(w'' & ? & ? & ?)]%with_executer_inv; [by left|].
    right. by exists e, w''. }
  unfold asi_context. unfold mbind at 1, M_bind, bind, get. cbv beta iota zeta.
  destruct (Py.startswith (platform w) "windows") eqn:Hw; [by apply Hwith|].
  destruct (Py.startswith (platform w) "linux") eqn:Hl.
  { unfold mbind, M_bind, bind.
    destruct (Py.startswith device "/dev/sd").
    - unfold lift. destruct (get_sg_from_sd device) as [dev|err].
      + apply Hwith. cbn [ex_kind]. by destruct (Py.startswith dev "/dev/sg").
      + intros ?; simplify_eq. left; eauto.
    - unfold mret, M_ret, ret. apply Hwith. cbn [ex_kind].
      by destruct (Py.startswith device "/dev/sg"). }
  destruct (Py.startswith (platform w) "solaris") eqn:Hs; [by apply Hwith|].
  destruct (Py.startswith (platform w) "aix") eqn:Ha; [by apply Hwith|].
  unfold raise. intros ?; simplify_eq. left; eauto.
Qed.

Lemma echo_events c w : events (echo c w) = events w.
Proof. unfold echo. by destruct (_verbose _). Qed.

Lemma sync_wait_raw_events asi c quiet w :
  0 <= send_length c ->
  events (snd (sync_wait asi (Raw c) quiet w)) = events w ++ [Called asi (raw_operation c)].
Proof.
  intros Hs. destruct quiet; [by rewrite sync_wait_raw|].
  unfold sync_wait, output_command, output_result, _print, print. simpl execute.
  rewrite CDB_execute_operation by done. simpl. unfold call, log. unfold_monad.
  destruct (_verbose (ActiveOutputContext w)); simpl;
    by destruct (executer_call _ _ _).
Qed.

(** ** Length specifications *)

(** C2 (as amended).  A length specification resolves to 0 when it is
    absent, to [int(L, 10)], its decimal value, when it is all decimal
    digits, to [int(L, 16)] when it starts with [0x], and is a
    [ValueError] in every other form, the empty string included.  The builder resolves both
    lengths while it constructs the command, which then carries the two
    numbers. *)
Theorem length_resolution :
  (forall message, resolve message None = Ok 0) /\
  (forall message L,
     resolve message (Some L) =
       if Py.isdigit L then Py.int L 10
       else if Py.startswith L "0x" then Py.int L 16
       else Raise (ValueError (message +:+ L))) /\
  (forall L, if Py.isdigit L then Py.int L 10 = Ok (decimal_value L) else True) /\
  (forall message, resolve message (Some "") = Raise (ValueError (message +:+ ""))) /\
  (forall cdb request output_file send input_file w,
     match fst (build_raw_command cdb request output_file send input_file w) with
     | Ok c => resolve "invalid request length: " request = Ok (request_length c) /\
               resolve "invalid send length: " send = Ok (send_length c)
     | Raise _ => True
     end).
Proof.
  split_and!; try done.
  - intros L. destruct (Py.isdigit L) eqn:Hd; [|done].
    by destruct (int_isdigit L Hd) as [-> _].
  - intros cdb request output_file send input_file w.
    destruct (build_raw_command _ _ _ _ _ w) as [[c|e] w'] eqn:Hb; [|done].
    apply build_raw_command_inv in Hb as (raw & R & N & _ & HR & HN & -> & _).
    by simpl.
Qed.

(** ** The raw command *)

(** C1.  The direction of a built raw command is decided by the resolved
    send length alone.  When it is positive the command issues exactly one
    channel call, a [SCSIWriteCommand] carrying the payload, and no read;
    when it is zero it issues exactly one [SCSIReadCommand] for the
    resolved request length, which is 0 when no request length was given. *)
Theorem raw_command_direction cdb request output_file send input_file w c w' :
  build_raw_command cdb request output_file send input_file w = (Ok c, w') ->
  exists R N,
    resolve "invalid request length: " request = Ok R /\
    resolve "invalid send length: " send = Ok N /\
    (request = None -> R = 0) /\
    0 <= N /\ Py.len (data c) = N /\
    (forall respond,
       sub_operations respond (execute (Raw c)) =
         [if 0 <? N then SCSIWriteCommand (create_datagram c) (data c)
          else SCSIReadCommand (create_datagram c) R]) /\
    (forall asi quiet w1,
       events (snd (sync_wait asi (Raw c) quiet w1)) =
         events w1 ++ [Called asi (if 0 <? N then SCSIWriteCommand (create_datagram c) (data c)
                                   else SCSIReadCommand (create_datagram c) R)]).
Proof.
  intros (raw & R & N & _ & HR & HN & Hc & Hlen & _)%build_raw_command_inv.
  pose proof (resolve_nonneg _ _ _ HN) as Hpos.
  assert (send_length c = N /\ request_length c = R) as [HsN HrR] by (by rewrite Hc).
  exists R, N. split_and!; try done.
  - intros ->. simpl in HR. by simplify_eq.
  - intros respond. simpl execute. rewrite CDB_execute_operation by lia.
    unfold raw_operation. by rewrite HsN, HrR.
  - intros asi quiet w1. rewrite sync_wait_raw_events by lia.
    unfold raw_operation. by rewrite HsN, HrR.
Qed.
Lemma build_raw_command_context cdb request output_file send input_file ctx w :
  build_raw_command cdb request output_file send input_file (set_context ctx w) =
    (fst (build_raw_command cdb request output_file send input_file w),
     set_context ctx (snd (build_raw_command cdb request output_file send input_file w))).
Proof.
  unfold build_raw_command. unfold_monad.
  destruct (restore _) as [raw|]; [|done].
  destruct (resolve _ request) as [R|]; [|done].
  destruct (resolve _ send) as [N|]; [|done].
  destruct (Py.truthy N).
  - destruct (String.eqb input_file "<stdin>").
    + unfold stdin_read. cbn [stdin set_context].
      destruct (Py.read N (stdin w)) as [got rest].
      by destruct (Py.len got =? N).
    + unfold file_read. cbn [files set_context].
      destruct (files w !! input_file); [|done].
      by destruct (Py.len _ =? N).
  - by destruct (Py.len "" =? N).
Qed.

Lemma restore_error dump e : restore dump = Raise e -> exists msg, e = ValueError msg.
Proof. unfold restore. destruct (dehex _); intros ?; simplify_eq. eauto. Qed.

Lemma resolve_error message x e : resolve message x = Raise e -> exists msg, e = ValueError msg.
Proof.
  destruct x as [L|]; simpl; [|done].
  destruct (Py.isdigit L) eqn:Hd.
  - by destruct (int_isdigit L Hd) as [-> _].
  - destruct (Py.startswith L "0x").
    + unfold Py.int. destruct (Py.int_literal L 16); intros ?; simplify_eq. eauto.
    + intros ?; simplify_eq. eauto.
Qed.

Lemma build_raw_command_short cdb request output_file send input_file w N source :
  resolve "invalid send length: " send = Ok N -> 0 < N ->
  input_source input_file w = Some source -> Py.len source < N ->
  exists e,
    fst (build_raw_command cdb request output_file send input_file w) = Raise e /\
    (e = AssertionError \/ exists msg, e = ValueError msg) /\
    (forall datagram R,
       restore (cdb_text cdb) = Ok datagram ->
       resolve "invalid request length: " request = Ok R -> e = AssertionError).
Proof.
  intros HN Hpos Hsrc Hshort.
  assert ((Py.len (fst (Py.read N source)) =? N) = false) as Hneq.
  { apply Z.eqb_neq. rewrite read_length by lia. lia. }
  unfold build_raw_command, input_source in *. fold (cdb_text cdb). unfold_monad.
  destruct (restore (cdb_text cdb)) as [raw|e] eqn:Hr.
  2:{ exists e. split_and!; [done|right; by eapply restore_error|done]. }
  destruct (resolve _ request) as [R|e] eqn:HR.
  2:{ exists e. split_and!; [done|right; by eapply resolve_error|done]. }
  rewrite HN. unfold Py.truthy.
  replace (N =? 0) with false by (symmetry; apply Z.eqb_neq; lia).
  cbn [negb].
  destruct (String.eqb input_file "<stdin>").
  - simplify_eq. unfold stdin_read.
    destruct (Py.read N (stdin w)) as [got rest] eqn:Hread.
    cbn [fst] in Hneq. rewrite Hneq.
    exists AssertionError. split_and!; [done|by left|done].
  - unfold file_read. rewrite Hsrc, Hneq.
    exists AssertionError. split_and!; [done|by left|done].
Qed.

Lemma raw_build_failure device cdb request output_file send input_file w e :
  fst (build_raw_command cdb request output_file send input_file w) = Raise e ->
  raw device cdb request output_file send input_file w =
    (Raise e, snd (build_raw_command cdb request output_file send input_file w)).
Proof.
  unfold raw. unfold mbind at 1, M_bind, bind.
  destruct (build_raw_command _ _ _ _ _ w) as [[c|e'] w']; simpl; [done|].
  by intros ?; simplify_eq.
Qed.

(** The handler turns the errors it names into [SystemExit(1)] and lets
    the others through to the interpreter; either way the status is 1 and
    nothing reaches a device. *)
Lemma exception_handler_status {A} (func : M A) w e w' :
  func w = (Raise e, w') -> is_fatal e = true ->
  exit_status (fst (exception_handler func w)) = 1 /\
  events (snd (exception_handler func w)) = events w'.
Proof.
  intros Hf He. unfold exception_handler. rewrite Hf. by destruct e.
Qed.

(** C3.  When the send length resolves to N > 0 and the input source
    holds fewer than N bytes, construction fails: with the
    [AssertionError] of the length check whenever the CDB and the request
    length were well formed (a [ValueError] for those comes first).  No
    command is built from a shorter or padded payload, no channel is
    opened or called, and the process ends with status 1.  A command
    that is built carries exactly the first N bytes of a source that held
    at least N. *)
Theorem incomplete_input_is_fatal device cdb request output_file send input_file w N source :
  resolve "invalid send length: " send = Ok N -> 0 < N ->
  input_source input_file w = Some source -> Py.len source < N ->
  (exists e,
     fst (build_raw_command cdb request output_file send input_file w) = Raise e /\
     fst (raw device cdb request output_file send input_file w) = Raise e /\
     (forall datagram R,
        restore (cdb_text cdb) = Ok datagram ->
        resolve "invalid request length: " request = Ok R -> e = AssertionError)) /\
  events (snd (raw device cdb request output_file send input_file w)) = events w /\
  (forall w0 c w1,
     build_raw_command cdb request output_file send input_file w0 = (Ok c, w1) ->
     Py.len (data c) = N /\
     exists held, input_source input_file w0 = Some held /\ N <= Py.len held /\
                  data c = fst (Py.read N held)) /\
  (forall arguments,
     family_of arguments = RawFamily ->
     arg_device arguments = device -> arg_cdb arguments = cdb ->
     arg_request arguments = request -> arg_outfile arguments = output_file ->
     arg_send arguments = send -> arg_infile arguments = input_file ->
     exit_status (fst (main arguments w)) = 1 /\
     events (snd (main arguments w)) = events w).
Proof.
  intros HN Hpos Hsrc Hshort.
  destruct (build_raw_command_short cdb request output_file send input_file w N source)
    as (e & Hb & Hclass & Hassert); [done..|].
  pose proof (build_raw_command_quiet cdb request output_file send input_file w) as (Hev & _).
  split_and!.
  - exists e. split_and!; [done| |done]. by rewrite (raw_build_failure _ _ _ _ _ _ _ e).
  - by rewrite (raw_build_failure _ _ _ _ _ _ _ e).
  - intros w0 c w1 (raw & R & N' & _ & _ & HN' & _ & Hlen & Hcases)%build_raw_command_inv.
    rewrite HN in HN'. injection HN' as <-. split; [done|].
    destruct Hcases as [(-> & _)|(_ & held & Hheld & Hdata & _)]; [lia|].
    exists held. split_and!; [done| |done].
    rewrite Hdata, read_length in Hlen by lia. lia.
  - intros a Hfam <- <- <- <- <- <-. unfold main.
    edestruct (exception_handler_status (main_body a) w e) as [-> ->].
    + rewrite main_body_dispatch. unfold dispatch. rewrite Hfam.
      rewrite (raw_build_failure _ _ _ _ _ _ _ e);
        rewrite build_raw_command_context; simpl; done.
    + by destruct Hclass as [->|[msg ->]].
    + split; [done|]. by simpl.
Qed.


(** C4 (as amended).  A successful raw invocation made exactly one channel
    call.  With a non-empty [--outfile] the result bytes become the whole
    contents of that file; without it the files are as before: the result
    is written nowhere.  In both cases the result is not printed: standard
    output gains the echo of the command when verbosity is on and nothing
    else, and standard error gains nothing. *)
Theorem raw_result_routing device cdb request output_file send input_file w w' :
  raw device cdb request output_file send input_file w = (Ok tt, w') ->
  exists c asi result,
    fst (build_raw_command cdb request output_file send input_file w) = Ok c /\
    events w' = events w ++ [Opened asi; Called asi (raw_operation c); Closed asi] /\
    executer_call asi (events w ++ [Opened asi]) (raw_operation c) = Ok result /\
    files w' = match given output_file with
               | Some name => <[name := result]> (files w)
               | None => files w
               end /\
    stdout w' = stdout w ++
                (if _verbose (ActiveOutputContext w)
                 then [format (_command_formatter (ActiveOutputContext w)) (VCommand (Raw c))]
                 else []) /\
    stderr w' = stderr w.
Proof.
  unfold raw. unfold mbind at 1, M_bind, bind.
  pose proof (build_raw_command_quiet cdb request output_file send input_file w)
    as (Hev & Hout & Herr & Hfiles & Hctx & _).
  destruct (build_raw_command _ _ _ _ _ w) as [[c|e] w1] eqn:Hb; [|done].
  simpl in Hev, Hout, Herr, Hfiles, Hctx.
  pose proof Hb as (raw & R & N & _ & _ & HN & Hc & _)%build_raw_command_inv.
  assert (0 <= send_length c) as Hs.
  { rewrite Hc. simpl. by eapply resolve_nonneg. }
  intros [(e & ? & _)|(asi & w2 & _ & Henter & Hbody & ->)]%asi_context_family; [done|].
  unfold mbind, M_bind, bind in Hbody. rewrite sync_wait_raw in Hbody by done.
  rewrite echo_events in Hbody. cbn [events set_events] in Hbody.
  destruct (executer_call asi _ _) as [result|] eqn:Hcall; [|done].
  rewrite Hev in Hcall.
  exists c, asi, result. split; [done|].
  unfold echo in Hbody. world_simpl in Hbody. rewrite Hctx in Hbody.
  destruct (given output_file) as [name|].
  - unfold open_truncate, file_write, modify in Hbody. simplify_eq.
    destruct (_verbose (ActiveOutputContext w)); simpl;
      rewrite Hev, Hout, Herr, Hfiles, insert_insert_eq, <- ?app_assoc, ?app_nil_r; done.
  - unfold mret, M_ret, ret in Hbody. simplify_eq.
    destruct (_verbose (ActiveOutputContext w)); simpl;
      rewrite Hev, ?Hout, Herr, Hfiles, <- ?app_assoc, ?app_nil_r; done.
Qed.

(** The datagram of a built command is what [restore] made of the CDB. *)
Lemma build_raw_command_datagram cdb request output_file send input_file w c w' :
  build_raw_command cdb request output_file send input_file w = (Ok c, w') ->
  restore (cdb_text cdb) = Ok (create_datagram c).
Proof.
  intros (raw & R & N & Hr & _ & _ & Hc & _)%build_raw_command_inv.
  rewrite Hc. by simpl.
Qed.

Lemma hex_digit_value n :
  0 <= n < 16 ->
  Py.digit_value (Py.hex_digit n) = Some n /\ Py.is_space (Py.hex_digit n) = false.
Proof.
  intros Hn.
  assert (exists k : nat, (k < 16)%nat /\ n = Z.of_nat k) as (k & Hk & ->)
    by (exists (Z.to_nat n); lia).
  do 16 (destruct k as [|k]; [by split|]). lia.
Qed.

Lemma ord_chr b : 0 <= b < 256 -> Py.ord (Py.chr b) = b.
Proof.
  intros Hb. unfold Py.ord, Py.chr. rewrite N_ascii_embedding by lia. lia.
Qed.

(** On the model of [restore]: the tokens that spell a sequence of bytes,
    joined by spaces, are restored to that sequence. *)
Lemma restore_hex_tokens bs :
  Forall (fun b => 0 <= b < 256) bs ->
  exists datagram,
    restore (String.concat " " (map hex_token bs)) = Ok datagram /\
    byte_values datagram = bs.
Proof.
  intros Hbs. unfold restore.
  assert (dehex (List.filter (fun c => negb (Py.is_space c))
                   (list_ascii_of_string (String.concat " " (map hex_token bs))))
          = Some (string_of_list_ascii (map Py.chr bs))) as ->.
  { induction Hbs as [|b bs Hb Hbs IH]; [done|].
    cbv beta in Hb.
    assert (0 <= b / 16 < 16 /\ 0 <= b mod 16 < 16 /\ 16 * (b / 16) + b mod 16 = b)
      as (Hhigh & Hlow & Hsplit) by (Z.div_mod_to_equations; lia).
    destruct (hex_digit_value (b / 16)) as [Hhi Hhs]; [done|].
    destruct (hex_digit_value (b mod 16)) as [Hlo Hls]; [done|].
    assert ((b / 16 <? 16) && (b mod 16 <? 16) = true) as Hlt.
    { apply andb_true_iff. split; apply Z.ltb_lt; lia. }
    destruct bs as [|b' bs].
    - cbn [map String.concat hex_token list_ascii_of_string List.filter].
      rewrite Hhs, Hls. cbn [negb dehex]. by rewrite Hhi, Hlo, Hlt, Hsplit.
    - assert (String.concat " " (map hex_token (b :: b' :: bs))
              = String (Py.hex_digit (b / 16)) (String (Py.hex_digit (b mod 16))
                  (String " " (String.concat " " (map hex_token (b' :: bs)))))) as ->
        by reflexivity.
      cbn [list_ascii_of_string List.filter].
      rewrite Hhs, Hls. change (Py.is_space " ") with true. cbn [negb dehex].
      by rewrite IH, Hhi, Hlo, Hlt, Hsplit. }
  eexists. split; [done|]. unfold byte_values. rewrite list_ascii_of_string_of_list_ascii.
  rewrite map_map. induction Hbs as [|b bs Hb _ IH]; [done|].
  cbn [map]. by rewrite ord_chr, IH.
Qed.

(** C7.  A raw command built from the CDB tokens ["12"; "34"] has the two
    bytes 0x12, 0x34 as its datagram, whatever the other parameters; and
    with no lengths given the build succeeds. *)
Theorem raw_datagram_round_trip request output_file send input_file w c w' :
  build_raw_command (CdbList ["12"; "34"]) request output_file send input_file w = (Ok c, w') ->
  byte_values (create_datagram c) = [0x12; 0x34] /\
  exists c0,
    build_raw_command (CdbList ["12"; "34"]) None output_file None input_file w = (Ok c0, w) /\
    byte_values (create_datagram c0) = [0x12; 0x34].
Proof.
  intros Hr%build_raw_command_datagram. split.
  - assert (restore (cdb_text (CdbList ["12"; "34"]))
            = Ok (String (Py.chr 0x12) (String (Py.chr 0x34) EmptyString))) as Hbytes
      by reflexivity.
    rewrite Hbytes in Hr. by injection Hr as <-.
  - eexists. split; reflexivity.
Qed.

(** ** The output context *)

(** C5.  The override flags are taken in the fixed order hex, raw, json:
    with [--hex] both formatters are the hex formatter whatever the other
    two flags are, else with [--raw] both are the raw formatter, else with
    [--json] both are the JSON formatter; with none of them the command
    formatter is kept and the result formatter is the one of the family
    (readcap, luns, rtpg) or, for the other families, the one in place. *)
Theorem formatter_precedence arguments w :
  let before := ActiveOutputContext w in
  let after := ActiveOutputContext (snd (set_formatters arguments w)) in
  fst (set_formatters arguments w) = Ok tt /\
  _verbose after = _verbose before /\
  (_command_formatter after, _result_formatter after) =
    (if arg_hex arguments then (HexOutputFormatter, HexOutputFormatter)
     else if arg_raw_output arguments then (RawOutputFormatter, RawOutputFormatter)
     else if arg_json arguments then (JsonOutputFormatter, JsonOutputFormatter)
     else (_command_formatter before,
           if arg_readcap arguments then ReadcapOutputFormatter
           else if arg_luns arguments then LunsOutputFormatter
           else if arg_rtpg arguments then RtpgOutputFormatter
           else _result_formatter before)) /\
  snd (set_formatters arguments w) = set_context after w.
Proof.
  rewrite set_formatters_spec. unfold selected_formatters. world_simpl. cbn [fst snd].
  split_and!; try done;
    by destruct (arg_hex arguments), (arg_raw_output arguments), (arg_json arguments).
Qed.

(** C8.  Whatever the output context holds, and whatever overrides
    [set_formatters] applied to it, [output_error] prints the rendering
    of the value by [ErrorOutputFormatter] on the stream it is given, and
    leaves the context and the other stream alone. *)
Theorem error_formatter_is_fixed ctx arguments result file w :
  let rendered := format ErrorOutputFormatter result in
  let w1 := snd (output_error result file (set_context ctx w)) in
  let w2 := snd ((set_formatters arguments;; output_error result file) w) in
  fst (output_error result file (set_context ctx w)) = Ok tt /\
  stream_of file w1 = stream_of file w ++ [rendered] /\
  stream_of (match file with Stdout => Stderr | Stderr => Stdout end) w1 =
    stream_of (match file with Stdout => Stderr | Stderr => Stdout end) w /\
  ActiveOutputContext w1 = ctx /\
  stream_of file w2 = stream_of file w ++ [rendered].
Proof.
  unfold mbind, M_bind, bind. rewrite set_formatters_spec.
  unfold output_error, _print, print, modify. by destruct file.
Qed.

(** ** The top-level handler *)

(** C9.  When the wrapped function raises [AsiCheckConditionError], the
    handler prints the rendering of its sense object by the error
    formatter on standard error and returns: no [SystemExit], status 0.
    Every other error class ends the process with status 1. *)
Theorem check_condition_exits_zero {A} (func : M A) w e w' :
  func w = (Raise e, w') ->
  match e with
  | AsiCheckConditionError sense_obj =>
      exception_handler func w =
        (Ok None, set_stderr (stderr w' ++ [format ErrorOutputFormatter (VObject sense_obj)]) w') /\
      exit_status (fst (exception_handler func w)) = 0
  | SystemExit code => exception_handler func w = (Raise (SystemExit code), w')
  | _ => exit_status (fst (exception_handler func w)) = 1
  end.
Proof.
  intros Hf. unfold exception_handler. rewrite Hf. by destruct e.
Qed.

(** ** The channel resolver *)

Lemma asi_context_unsupported {A} device (body : executer -> M A) w :
  recognised (platform w) = false ->
  asi_context device body w = (Raise (NotImplementedError "this platform is not supported"), w).
Proof.
  unfold recognised. cbn [existsb]. rewrite !orb_false_iff.
  intros (Hw & Hl & Hs & Ha & _). unfold asi_context. unfold_monad.
  by rewrite Hw, Hl, Hs, Ha.
Qed.

Lemma int_error s base e : Py.int s base = Raise e -> exists msg, e = ValueError msg.
Proof. unfold Py.int. destruct (Py.int_literal s base); intros ?; simplify_eq. eauto. Qed.

Lemma build_raw_command_error cdb request output_file send input_file w e :
  fst (build_raw_command cdb request output_file send input_file w) = Raise e ->
  is_fatal e = true.
Proof.
  unfold build_raw_command. fold (cdb_text cdb). unfold_monad.
  destruct (restore _) as [raw|e1] eqn:Hr.
  2:{ apply restore_error in Hr as [msg ->]. by intros [= <-]. }
  destruct (resolve _ request) as [R|e1] eqn:HR.
  2:{ apply resolve_error in HR as [msg ->]. by intros [= <-]. }
  destruct (resolve _ send) as [N|e1] eqn:HN.
  2:{ apply resolve_error in HN as [msg ->]. by intros [= <-]. }
  destruct (Py.truthy N).
  - destruct (String.eqb input_file "<stdin>").
    + unfold stdin_read. destruct (Py.read N (stdin w)) as [got rest].
      destruct (Py.len got =? N); by intros [= <-].
    + unfold file_read. destruct (files w !! input_file).
      * destruct (Py.len _ =? N); by intros [= <-].
      * by intros [= <-].
  - destruct (Py.len "" =? N); by intros [= <-].
Qed.

(** On a platform outside the four families every family of [main] fails
    before anything reaches a device. *)
Lemma dispatch_unsupported a w :
  recognised (platform w) = false ->
  family_of a <> NoFamily ->
  (family_of a = Inq -> arg_page a = None) ->
  exists e w', dispatch a w = (Raise e, w') /\ is_fatal e = true /\ events w' = events w.
Proof.
  intros Hrec Hsome Hinq. unfold dispatch.
  destruct (family_of a); try done.
  - unfold turs. rewrite asi_context_unsupported by done. by eexists _, _.
  - rewrite Hinq by done. unfold inq. unfold_monad.
    rewrite asi_context_unsupported by done. by eexists _, _.
  - unfold luns. unfold_monad. destruct (Py.int _ 10) as [n|e] eqn:Hn.
    + rewrite asi_context_unsupported by done. by eexists _, _.
    + apply int_error in Hn as [msg ->]. by eexists _, _.
  - unfold rtpg. rewrite asi_context_unsupported by done. by eexists _, _.
  - unfold readcap. rewrite asi_context_unsupported by done. by eexists _, _.
  - unfold raw. unfold mbind at 1, M_bind, bind.
    pose proof (build_raw_command_quiet (arg_cdb a) (arg_request a) (arg_outfile a)
                  (arg_send a) (arg_infile a) w) as (Hev & _ & _ & _ & _ & Hp).
    pose proof (build_raw_command_error (arg_cdb a) (arg_request a) (arg_outfile a)
                  (arg_send a) (arg_infile a) w) as Hfatal.
    destruct (build_raw_command _ _ _ _ _ w) as [[c|e] w1]; cbn [fst snd] in *.
    + rewrite asi_context_unsupported by by rewrite Hp. by eexists _, _.
    + eexists _, _. split_and!; [done|by apply Hfatal|done].
  - unfold logs. unfold_monad. destruct (resolve _ _) as [n|e] eqn:Hn.
    + rewrite asi_context_unsupported by done. by eexists _, _.
    + apply resolve_error in Hn as [msg ->]. by eexists _, _.
  - unfold reset. unfold_monad.
    assert (Py.startswith (platform w) "linux" = false) as ->.
    { unfold recognised in Hrec. cbn [existsb] in Hrec.
      rewrite !orb_false_iff in Hrec. tauto. }
    by eexists _, _.
Qed.

Lemma with_executer_runs {A} e (body : executer -> M A) w :
  executer_enter e (events w) = None ->
  with_executer e body w =
    (fst (body e (set_events (events w ++ [Opened e]) w)),
     set_events (events (snd (body e (set_events (events w ++ [Opened e]) w))) ++ [Closed e])
       (snd (body e (set_events (events w ++ [Opened e]) w)))).
Proof.
  intros Henter. unfold with_executer, finally, log. unfold_monad. rewrite Henter.
  by destruct (body e _).
Qed.

(** On a platform of one of the four families, with executers that let the
    block in and a lookup that answers, the block runs on a channel of the
    first family, in the order windows, linux, solaris, aix, that the
    platform name starts with. *)
Lemma asi_context_accepts {A} device (body : executer -> M A) w :
  recognised (platform w) = true ->
  (forall e, executer_enter e (events w) = None) ->
  (Py.startswith device "/dev/sd" = true -> exists d, get_sg_from_sd device = Ok d) ->
  exists e,
    find (Py.startswith (platform w)) ["windows"; "linux"; "solaris"; "aix"]
      = Some (os_family (ex_kind e)) /\
    asi_context device body w =
      (fst (body e (set_events (events w ++ [Opened e]) w)),
       set_events (events (snd (body e (set_events (events w ++ [Opened e]) w))) ++ [Closed e])
         (snd (body e (set_events (events w ++ [Opened e]) w)))).
Proof.
  intros Hrec Henter Hlookup. unfold recognised in Hrec. cbn [existsb] in Hrec.
  unfold asi_context. unfold mbind at 1, M_bind, bind, get. cbv beta iota zeta.
  cbn [find].
  destruct (Py.startswith (platform w) "windows").
  { eexists (mkExecuter windows device). split; [done|]. by apply with_executer_runs. }
  destruct (Py.startswith (platform w) "linux").
  { unfold mbind, M_bind, bind.
    destruct (Py.startswith device "/dev/sd").
    - destruct Hlookup as [d Hd]; [done|]. unfold lift. rewrite Hd.
      eexists (mkExecuter _ d). split; [|by apply with_executer_runs].
      cbn [ex_kind]. by destruct (Py.startswith d "/dev/sg").
    - unfold mret, M_ret, ret.
      eexists (mkExecuter _ device). split; [|by apply with_executer_runs].
      cbn [ex_kind]. by destruct (Py.startswith device "/dev/sg"). }
  destruct (Py.startswith (platform w) "solaris").
  { eexists (mkExecuter solaris device). split; [done|]. by apply with_executer_runs. }
  destruct (Py.startswith (platform w) "aix"); [|done].
  eexists (mkExecuter aix device). split; [done|]. by apply with_executer_runs.
Qed.

(** C6.  [asi_context] knows exactly four operating-system families:
    windows, linux, solaris and aix.  On a platform whose name starts with
    none of them it raises [NotImplementedError] with the state untouched,
    so no channel is opened; the handler prints the message on standard
    error and raises [SystemExit(1)], and every family of [main] ends with
    status 1 and no device event.  On a platform whose name starts with
    one of the four, it opens a channel of the first of them the name
    starts with and runs its block on it (given executers that let the
    block in and, for a [/dev/sd] path on linux, a lookup that answers).
    When [asi_context] does run its block, the channel belongs to the
    family the platform name starts with. *)
Theorem unsupported_platform_is_fatal {A} device (body : executer -> M A) w :
  recognised (platform w) = false ->
  asi_context device body w =
    (Raise (NotImplementedError "this platform is not supported"), w) /\
  exception_handler (asi_context device body) w =
    (Raise (SystemExit 1), set_stderr (stderr w ++ ["this platform is not supported"]) w) /\
  exit_status (fst (exception_handler (asi_context device body) w)) = 1 /\
  (forall arguments,
     family_of arguments <> NoFamily ->
     (family_of arguments = Inq -> arg_page arguments = None) ->
     exit_status (fst (main arguments w)) = 1 /\
     events (snd (main arguments w)) = events w) /\
  (forall w0 r w',
     asi_context device body w0 = (r, w') -> w' <> w0 ->
     exists e, Py.startswith (platform w0) (os_family (ex_kind e)) = true /\
               recognised (platform w0) = true /\
               executer_enter e (events w0) = None) /\
  (forall w0,
     recognised (platform w0) = true ->
     (forall e, executer_enter e (events w0) = None) ->
     (Py.startswith device "/dev/sd" = true -> exists d, get_sg_from_sd device = Ok d) ->
     exists e,
       find (Py.startswith (platform w0)) ["windows"; "linux"; "solaris"; "aix"]
         = Some (os_family (ex_kind e)) /\
       asi_context device body w0 =
         (fst (body e (set_events (events w0 ++ [Opened e]) w0)),
          set_events
            (events (snd (body e (set_events (events w0 ++ [Opened e]) w0))) ++ [Closed e])
            (snd (body e (set_events (events w0 ++ [Opened e]) w0))))).
Proof.
  intros Hrec. pose proof (asi_context_unsupported device body w Hrec) as Hraise.
  split_and!; try done; [| | | |apply asi_context_accepts].
  - unfold exception_handler. by rewrite Hraise.
  - unfold exception_handler. by rewrite Hraise.
  - intros a Hsome Hinq. unfold main.
    destruct (dispatch_unsupported a (set_context (configured a (ActiveOutputContext w)) w))
      as (e & w1 & Hd & Hfatal & Hev); [done..|].
    rewrite <- main_body_dispatch in Hd.
    by destruct (exception_handler_status (main_body a) w e w1) as [-> ->].
  - intros w0 r w' [(err & _ & ->)|(e & w'' & Hfam & Henter & _)]%asi_context_family Hne;
      [done|].
    exists e. split_and!; [done| |done].
    unfold recognised. cbn [existsb]. destruct (ex_kind e); cbn [os_family] in Hfam;
      rewrite Hfam; by rewrite ?orb_true_r.
Qed.

(** ** Reset *)

(** C10.  On a Linux host, [reset] with none of [--target], [--host],
    [--device] calls no reset function and raises nothing: the state is
    untouched, and [main] returns with status 0, having changed nothing
    but the output context it configures. *)
Theorem reset_without_scope_is_silent device w :
  Py.startswith (platform w) "linux" = true ->
  reset device false false false w = (Ok tt, w) /\
  forall arguments,
    family_of arguments = ResetFamily ->
    arg_device arguments = device ->
    arg_target arguments = false -> arg_host arguments = false ->
    arg_devreset arguments = false ->
    main arguments w =
      (Ok (Some tt), set_context (configured arguments (ActiveOutputContext w)) w) /\
    exit_status (fst (main arguments w)) = 0 /\
    events (snd (main arguments w)) = events w /\
    stdout (snd (main arguments w)) = stdout w /\
    stderr (snd (main arguments w)) = stderr w.
Proof.
  intros Hlinux.
  assert (forall ctx, reset device false false false (set_context ctx w)
                      = (Ok tt, set_context ctx w)) as Hreset.
  { intros ctx. unfold reset. unfold_monad. world_simpl. by rewrite Hlinux. }
  split.
  - unfold reset. unfold_monad. by rewrite Hlinux.
  - intros a Hfam <- Ht Hh Hd.
    assert (main a w = (Ok (Some tt), set_context (configured a (ActiveOutputContext w)) w))
      as ->; [|done].
    unfold main, exception_handler. rewrite main_body_dispatch. unfold dispatch.
    by rewrite Hfam, Ht, Hh, Hd, Hreset.
Qed.

End Results.

(** ** Instances and counterexamples on concrete inputs *)

(** The empty string is not resolved to 0: it is neither all digits nor
    [0x]-prefixed, so the chain ends in its [else] and the builder fails. *)
Lemma empty_length_is_rejected :
  resolve "invalid request length: " (Some "") = Raise (ValueError "invalid request length: ") /\
  resolve "invalid request length: " (Some "") <> Ok 0 /\
  fst (build_raw_command (CdbList ["12"; "34"]) (Some "") None None "<stdin>"
         (example_world "linux" ""))
    = Raise (ValueError "invalid request length: ").
Proof. split_and!; [reflexivity | discriminate | reflexivity]. Qed.

Lemma raw_command_direction_witness :
  exists R N,
    resolve "invalid request length: " (Some "0x24") = Ok R /\
    resolve "invalid send length: " (Some "3") = Ok N /\
    (Some "0x24" = None -> R = 0) /\
    0 <= N /\ Py.len "abc" = N /\
    (forall respond,
       sub_operations respond (@execute example_externals (Raw (mkCDB "AB" 36 3 "abc"))) =
         [if 0 <? N then SCSIWriteCommand "AB" "abc" else SCSIReadCommand "AB" R]) /\
    (forall asi quiet w1,
       events (snd (@sync_wait example_externals asi (Raw (mkCDB "AB" 36 3 "abc")) quiet w1)) =
         events w1 ++ [Called asi (if 0 <? N then SCSIWriteCommand "AB" "abc"
                                   else SCSIReadCommand "AB" R)]).
Proof.
  apply (@raw_command_direction example_externals (CdbList ["41"; "42"]) (Some "0x24") None (Some "3")
           "<stdin>" (example_world "linux" "abcd") (mkCDB "AB" 36 3 "abc")
           (set_stdin "d" (example_world "linux" "abcd"))).
  vm_compute. reflexivity.
Defined.

(** The scenario of a send length of 10 against four bytes of input. *)
Lemma incomplete_input_is_fatal_witness :
  let w := example_world "linux" "abcd" in
  let cdb := CdbList ["12"; "00"; "00"; "00"; "00"; "00"] in
  (resolve "invalid send length: " (Some "10") = Ok 10 /\ 0 < 10 /\
   input_source "<stdin>" w = Some "abcd" /\ Py.len "abcd" < 10) /\
  fst (@raw example_externals "/dev/sg0" cdb None None (Some "10") "<stdin>" w)
    = Raise AssertionError /\
  events (snd (@raw example_externals "/dev/sg0" cdb None None (Some "10") "<stdin>" w)) = [] /\
  exit_status (fst (@main example_externals (raw_arguments None (Some "10") None "<stdin>") w)) = 1.
Proof.
  intros w cdb.
  destruct (@incomplete_input_is_fatal example_externals "/dev/sg0" cdb None None (Some "10")
              "<stdin>" w 10 "abcd")
    as ((e & Hb & Hr & Hassert) & Hev & _ & Hmain);
    [reflexivity | lia | reflexivity | vm_compute; reflexivity |].
  split; [split_and!; [reflexivity | lia | reflexivity | vm_compute; reflexivity]|].
  split_and!.
  - rewrite Hr. f_equal. eapply Hassert; reflexivity.
  - exact Hev.
  - apply (Hmain (raw_arguments None (Some "10") None "<stdin>")); reflexivity.
Defined.

(** Without [--outfile] a successful raw invocation prints nothing: the
    result is not routed through the result formatter to standard output. *)
Lemma raw_without_outfile_prints_nothing :
  let w := example_world "linux" "" in
  let arguments := raw_arguments (Some "0x24") None None "<stdin>" in
  let run := @main example_externals arguments w in
  fst run = Ok (Some tt) /\
  events (snd run) =
    [Opened (mkExecuter linux_sg "/dev/sg0");
     Called (mkExecuter linux_sg "/dev/sg0")
       (SCSIReadCommand (String (Py.chr 0x12) (String.string_of_list_ascii (repeat (Py.chr 0) 5))) 36);
     Closed (mkExecuter linux_sg "/dev/sg0")] /\
  stdout (snd run) = [] /\
  ~ In (@format example_externals (_result_formatter (ActiveOutputContext (snd run))) (VStr "DATA"))
       (stdout (snd run)).
Proof.
  split_and!; [reflexivity | reflexivity | reflexivity |].
  vm_compute. tauto.
Qed.

Lemma raw_result_routing_witness :
  let w := example_world "linux" "" in
  let cdb := CdbList ["41"; "42"] in
  let w' := snd (@raw example_externals "/dev/sg0" cdb (Some "0x24") (Some "out.bin") None "<stdin>" w) in
  @raw example_externals "/dev/sg0" cdb (Some "0x24") (Some "out.bin") None "<stdin>" w = (Ok tt, w') /\
  files w' !! "out.bin" = Some "DATA" /\
  stdout w' = [] /\ stderr w' = [].
Proof.
  intros w cdb w'.
  assert (@raw example_externals "/dev/sg0" cdb (Some "0x24") (Some "out.bin") None "<stdin>" w
          = (Ok tt, w')) as Hrun by (vm_compute; reflexivity).
  split; [exact Hrun|].
  destruct (@raw_result_routing example_externals _ _ _ _ _ _ _ _ Hrun)
    as (c & asi & result & Hc & Hev & Hcall & Hfiles & Hout & Herr).
  split_and!.
  - rewrite Hfiles. cbn [given]. rewrite lookup_insert_eq. f_equal.
    cbn in Hcall. by injection Hcall as <-.
  - rewrite Hout. reflexivity.
  - rewrite Herr. reflexivity.
Defined.

Lemma unsupported_platform_is_fatal_witness :
  let w := example_world "freebsd" "" in
  let body := (fun _ => mret tt) : executer -> M unit in
  recognised (platform w) = false /\
  @asi_context example_externals unit "/dev/da0" body w =
    (Raise (NotImplementedError "this platform is not supported"), w) /\
  exit_status (fst (@main example_externals (raw_arguments (Some "0x24") None None "<stdin>") w)) = 1 /\
  events (snd (@main example_externals (raw_arguments (Some "0x24") None None "<stdin>") w)) = [] /\
  (forall p, In p ["windows"; "linux"; "solaris"; "aix"] ->
     exists e,
       find (Py.startswith p) ["windows"; "linux"; "solaris"; "aix"] = Some (os_family (ex_kind e)) /\
       @asi_context example_externals unit "/dev/da0" body (example_world p "") =
         (Ok tt, set_events [Opened e; Closed e] (example_world p ""))).
Proof.
  intros w body.
  destruct (@unsupported_platform_is_fatal example_externals unit "/dev/da0" body w)
    as (Hraise & _ & _ & Hmain & _ & Haccept); [reflexivity|].
  split; [reflexivity|]. split; [exact Hraise|].
  destruct (Hmain (raw_arguments (Some "0x24") None None "<stdin>")) as [Hs He];
    [discriminate | discriminate |].
  split; [exact Hs|]. split; [exact He|].
  intros p Hp.
  destruct (Haccept (example_world p "")) as (e & Hfind & Hrun).
  - cbn [In] in Hp. destruct Hp as [<-|[<-|[<-|[<-|[]]]]]; reflexivity.
  - reflexivity.
  - discriminate.
  - exists e. split; [exact Hfind | exact Hrun].
Defined.

Lemma raw_datagram_round_trip_witness :
  let w := example_world "linux" "abcd" in
  exists c,
    build_raw_command (CdbList ["12"; "34"]) (Some "0x24") None (Some "2") "<stdin>" w
      = (Ok c, set_stdin "cd" w) /\
    byte_values (create_datagram c) = [0x12; 0x34].
Proof.
  intros w.
  exists (mkCDB (String (Py.chr 0x12) "4") 36 2 "ab").
  assert (build_raw_command (CdbList ["12"; "34"]) (Some "0x24") None (Some "2") "<stdin>" w
          = (Ok (mkCDB (String (Py.chr 0x12) "4") 36 2 "ab"), set_stdin "cd" w)) as Hb
    by (vm_compute; reflexivity).
  split; [exact Hb|].
  exact (proj1 (raw_datagram_round_trip _ _ _ _ _ _ _ Hb)).
Defined.

(** A device that answers with a check condition: the sense data goes to
    standard error through the error formatter and the status is 0. *)
Lemma check_condition_exits_zero_witness :
  let w := example_world "linux" "" in
  let arguments := raw_arguments (Some "0x24") None None "<stdin>" in
  fst (@main_body failing_externals arguments w) = Raise (AsiCheckConditionError 7%N) /\
  fst (@main failing_externals arguments w) = Ok None /\
  stderr (snd (@main failing_externals arguments w)) = ["error:<object>"] /\
  exit_status (fst (@main failing_externals arguments w)) = 0.
Proof.
  intros w arguments.
  assert (@main_body failing_externals arguments w
          = (Raise (AsiCheckConditionError 7%N), snd (@main_body failing_externals arguments w)))
    as Hraise by (vm_compute; reflexivity).
  destruct (@check_condition_exits_zero failing_externals unit _ _ _ _ Hraise) as [Hrun Hstatus].
  split; [by rewrite Hraise|].
  unfold main. rewrite Hrun. split_and!; [reflexivity | reflexivity | exact Hstatus].
Defined.

Lemma reset_without_scope_is_silent_witness :
  let w := example_world "linux-ubuntu-trusty-x64" "" in
  Py.startswith (platform w) "linux" = true /\
  @reset example_externals "/dev/sg0" false false false w = (Ok tt, w) /\
  @main example_externals (reset_arguments false false false) w = (Ok (Some tt), w) /\
  exit_status (fst (@main example_externals (reset_arguments false false false) w)) = 0.
Proof.
  intros w.
  destruct (@reset_without_scope_is_silent example_externals "/dev/sg0" w) as [Hreset Hmain];
    [reflexivity|].
  split; [reflexivity|]. split; [exact Hreset|].
  destruct (Hmain (reset_arguments false false false)) as (Hrun & Hstatus & _);
    [reflexivity..|].
  split; [|exact Hstatus]. rewrite Hrun. reflexivity.
Defined.

(** The end-to-end scenario: [raw /dev/sg0 12 00 00 00 00 00 --request=0x24]
    issues one read of up to 36 bytes. *)
Example raw_read_end_to_end :
  exists c,
    fst (build_raw_command (CdbList ["12"; "00"; "00"; "00"; "00"; "00"]) (Some "0x24") None None
           "<stdin>" (example_world "linux" "")) = Ok c /\
    sub_operations (fun _ => "") (@execute example_externals (Raw c))
      = [SCSIReadCommand (create_datagram c) 36] /\
    byte_values (create_datagram c) = [0x12; 0; 0; 0; 0; 0].
Proof. eexists. split_and!; reflexivity. Qed.

(** * Further results on the program *)

Ltac run_monad :=
  unfold mbind, M_bind, bind, mret, M_ret, ret, lift, raise, get, modify in *.

Ltac world_cbn :=
  cbn [platform stdin files stdout stderr ActiveOutputContext events
       set_stdin set_files set_stdout set_stderr set_context set_events fst snd] in *.

(** ** What the parts of the program leave alone *)
Section Frame.
Context `{Externals} {X : Type} (observe : World -> X).
Hypothesis observe_events : forall l w, observe (set_events l w) = observe w.
Hypothesis observe_stdout : forall l w, observe (set_stdout l w) = observe w.

Lemma keeps_ret {A} (a : A) : keeps observe (mret a).
Proof. by intros w. Qed.

Lemma keeps_raise {A} e : keeps observe (@raise A e).
Proof. by intros w. Qed.

Lemma keeps_lift {A} (r : res A) : keeps observe (lift r).
Proof. by intros w. Qed.

Lemma keeps_bind {A B} (m : M A) (f : A -> M B) :
  keeps observe m -> (forall a, keeps observe (f a)) -> keeps observe (m ≫= f).
Proof.
  intros Hm Hf w. specialize (Hm w). run_monad.
  destruct (m w) as [[a|e] w1]; cbn [snd] in *; [|done].
  by rewrite Hf.
Qed.

Lemma keeps_log ev : keeps observe (log ev).
Proof. intros w. unfold log, modify. cbn [snd]. apply observe_events. Qed.

Lemma keeps_print text : keeps observe (print text Stdout).
Proof. intros w. unfold print, modify. cbn [snd]. apply observe_stdout. Qed.

Lemma keeps_call e op : keeps observe (call e op).
Proof.
  intros w. unfold call, log. run_monad.
  destruct (executer_call e (events w) op); cbn [snd]; apply observe_events.
Qed.

Lemma keeps__sync_wait e c : keeps observe (_sync_wait e c).
Proof.
  induction c as [op resume IH|v]; cbn [_sync_wait].
  - apply keeps_bind; [apply keeps_call | done].
  - apply keeps_ret.
Qed.

Lemma keeps_output_command c : keeps observe (output_command c Stdout).
Proof.
  intros w. unfold output_command, _print. run_monad.
  destruct (negb _); [done|]. apply keeps_print.
Qed.

Lemma keeps_output_result v : keeps observe (output_result v Stdout).
Proof. intros w. unfold output_result, _print. run_monad. apply keeps_print. Qed.

Lemma keeps_sync_wait asi c quiet : keeps observe (sync_wait asi c quiet).
Proof.
  unfold sync_wait. apply keeps_bind; [apply keeps_output_command|]. intros _.
  apply keeps_bind; [apply keeps__sync_wait|]. intros v.
  apply keeps_bind; [|intros _; apply keeps_ret].
  destruct (negb quiet); [apply keeps_output_result | apply keeps_ret].
Qed.

Lemma keeps_with_executer {A} e (body : executer -> M A) :
  (forall e, keeps observe (body e)) -> keeps observe (with_executer e body).
Proof.
  intros Hbody w. unfold with_executer, finally. run_monad.
  destruct (executer_enter e (events w)); [done|].
  unfold log, modify. cbn [snd].
  destruct (body e _) as [r w1] eqn:Hb. cbn [snd].
  rewrite observe_events. specialize (Hbody e (set_events (events w ++ [Opened e]) w)).
  rewrite Hb in Hbody. cbn [snd] in Hbody. by rewrite Hbody, observe_events.
Qed.

Lemma keeps_asi_context {A} device (body : executer -> M A) :
  (forall e, keeps observe (body e)) -> keeps observe (asi_context device body).
Proof.
  intros Hbody w. unfold asi_context. unfold mbind at 1, M_bind, bind, get.
  cbv beta iota zeta.
  repeat match goal with
         | |- context [if ?b then _ else _] =>
             lazymatch b with
             | Py.startswith (platform w) _ => destruct b
             end
         end; try by apply keeps_with_executer.
  - apply keeps_bind; [|intros d; by apply keeps_with_executer].
    destruct (Py.startswith device "/dev/sd"); [apply keeps_lift | apply keeps_ret].
  - apply keeps_raise.
Qed.

Lemma keeps_for_xrange n (body : M unit) :
  keeps observe body -> keeps observe (for_xrange n body).
Proof.
  intros Hbody. induction n as [|n IH]; cbn [for_xrange]; [apply keeps_ret|].
  apply keeps_bind; [done|]. by intros _.
Qed.

Lemma keeps_channel_command device c :
  keeps observe (asi_context device (fun asi => sync_wait asi c false;; mret tt)).
Proof.
  apply keeps_asi_context. intros e.
  apply keeps_bind; [apply keeps_sync_wait | intros _; apply keeps_ret].
Qed.

Lemma keeps_turs device number : keeps observe (turs device number).
Proof.
  unfold turs. apply keeps_asi_context. intros e.
  apply keeps_bind; [apply keeps_lift|]. intros n.
  apply keeps_bind; [apply keeps_lift|]. intros times. apply keeps_for_xrange.
  apply keeps_bind; [apply keeps_sync_wait | intros _; apply keeps_ret].
Qed.

Lemma keeps_inq device page : keeps observe (inq device page).
Proof.
  unfold inq. apply keeps_bind; [|intros c; apply keeps_channel_command].
  destruct page as [p|]; [|apply keeps_ret].
  destruct (Py.isdigit p); [|destruct (Py.startswith p "0x")].
  - apply keeps_bind; [apply keeps_lift | intros n; apply keeps_lift].
  - apply keeps_bind; [apply keeps_lift | intros n; apply keeps_lift].
  - apply keeps_raise.
Qed.

Lemma keeps_luns device select_report : keeps observe (luns device select_report).
Proof.
  unfold luns. apply keeps_bind; [apply keeps_lift | intros n; apply keeps_channel_command].
Qed.

Lemma keeps_rtpg device extended : keeps observe (rtpg device extended).
Proof. unfold rtpg. apply keeps_channel_command. Qed.

Lemma keeps_readcap device read_16 : keeps observe (readcap device read_16).
Proof. unfold readcap. apply keeps_channel_command. Qed.

Lemma keeps_logs device page : keeps observe (logs device page).
Proof.
  unfold logs. apply keeps_bind; [apply keeps_lift | intros n; apply keeps_channel_command].
Qed.

Lemma keeps_reset device target host lun : keeps observe (reset device target host lun).
Proof.
  assert (forall k, keeps observe (sg_reset_call k device)) as Hcall.
  { intros k w. unfold sg_reset_call, log. run_monad.
    destruct (sg_reset k device (events w)); cbn [snd]; apply observe_events. }
  intros w. unfold reset. unfold mbind at 1, M_bind, bind, get. cbv beta iota zeta.
  destruct (Py.startswith (platform w) "linux"); [|done].
  destruct target; [apply Hcall|]. destruct host; [apply Hcall|].
  destruct lun; [apply Hcall|done].
Qed.

(** The handler writes on standard error only. *)
Hypothesis observe_stderr : forall l w, observe (set_stderr l w) = observe w.

Lemma keeps_exception_handler {A} (func : M A) :
  keeps observe func -> keeps observe (exception_handler func).
Proof.
  intros Hf w. specialize (Hf w). unfold exception_handler.
  destruct (func w) as [[a|e] w1]; cbn [snd] in *; [done|].
  destruct e; try done; unfold output_error, _print, print; run_monad; cbn [snd];
    by rewrite observe_stderr.
Qed.

Lemma exception_handler_frame {A} (func : M A) w :
  observe (snd (exception_handler func w)) = observe (snd (func w)).
Proof.
  unfold exception_handler. destruct (func w) as [[a|e] w1]; cbn [snd]; [done|].
  destruct e; try done; unfold output_error, _print, print; run_monad; cbn [snd];
    by rewrite observe_stderr.
Qed.

(** Reading the payload and writing the result are the only steps that
    touch standard input and the files. *)
Hypothesis observe_stdin : forall s w, observe (set_stdin s w) = observe w.
Hypothesis observe_files : forall f w, observe (set_files f w) = observe w.

Lemma keeps_build_raw_command cdb request output_file send input_file :
  keeps observe (build_raw_command cdb request output_file send input_file).
Proof.
  intros w. unfold build_raw_command. run_monad.
  destruct (restore _); [|done]. destruct (resolve _ request); [|done].
  destruct (resolve _ send) as [N|]; [|done].
  destruct (Py.truthy N).
  - destruct (String.eqb input_file "<stdin>").
    + unfold stdin_read. destruct (Py.read N (stdin w)) as [got rest].
      destruct (Py.len got =? N); cbn [snd]; apply observe_stdin.
    + unfold file_read. destruct (files w !! input_file); [|done].
      by destruct (Py.len _ =? N).
  - by destruct (Py.len "" =? N).
Qed.

Lemma keeps_raw device cdb request output_file send input_file :
  keeps observe (raw device cdb request output_file send input_file).
Proof.
  unfold raw. apply keeps_bind; [apply keeps_build_raw_command|]. intros c.
  apply keeps_asi_context. intros e.
  apply keeps_bind; [apply keeps_sync_wait|]. intros v.
  destruct (given output_file) as [name|]; [|apply keeps_ret].
  apply keeps_bind.
  - intros w. unfold open_truncate, modify. cbn [snd]. apply observe_files.
  - intros _ w. unfold file_write. destruct v; try done.
    unfold modify. cbn [snd]. apply observe_files.
Qed.

Lemma keeps_dispatch a : keeps observe (dispatch a).
Proof.
  unfold dispatch. destruct (family_of a);
    auto using keeps_turs, keeps_inq, keeps_luns, keeps_rtpg, keeps_readcap, keeps_raw,
      keeps_logs, keeps_reset, keeps_ret.
Qed.

End Frame.

Section Extras.
Context `{Externals}.

(** ** The output context across a run *)

Lemma setup_configures a w :
  ((if arg_verbose a then enable_verbose else mret tt);; set_formatters a) w =
    (Ok tt, set_context (configured a (ActiveOutputContext w)) w).
Proof.
  unfold mbind, M_bind, bind.
  assert ((if arg_verbose a then enable_verbose else mret ()) w =
          (Ok tt, set_context (if arg_verbose a
             then mkOutputContext true (_command_formatter (ActiveOutputContext w))
                                       (_result_formatter (ActiveOutputContext w))
             else ActiveOutputContext w) w)) as ->.
  { destruct (arg_verbose a); [done|]. by destruct w. }
  rewrite set_formatters_spec. unfold configured. by destruct w.
Qed.

Lemma main_context a w :
  ActiveOutputContext (snd (main a w)) = configured a (ActiveOutputContext w).
Proof.
  unfold main. rewrite (exception_handler_frame ActiveOutputContext) by done.
  rewrite main_body_dispatch. by rewrite (keeps_dispatch ActiveOutputContext).
Qed.

(** X1.  The output context is written by the first two statements of
    [main] and by nothing after them: whatever family runs, and whether it
    succeeds or fails, the context at the end is the one the set-up left,
    and the platform name is as it was. *)
Theorem main_configures_once a w :
  ActiveOutputContext (snd (main a w)) =
    ActiveOutputContext
      (snd (((if arg_verbose a then enable_verbose else mret tt);; set_formatters a) w)) /\
  platform (snd (main a w)) = platform w.
Proof.
  rewrite setup_configures. cbn [snd]. split; [apply main_context|].
  unfold main. rewrite (exception_handler_frame platform) by done.
  rewrite main_body_dispatch. by rewrite (keeps_dispatch platform).
Qed.

(** X2.  Only the raw family reads standard input or writes a file: under
    every other family the files and the unread part of standard input are
    the same after [main] as before. *)
Theorem only_raw_touches_files a w :
  family_of a <> RawFamily ->
  files (snd (main a w)) = files w /\ stdin (snd (main a w)) = stdin w.
Proof.
  intros Hfam. unfold main. split.
  - rewrite (exception_handler_frame files) by done.
    rewrite main_body_dispatch. unfold dispatch.
    destruct (family_of a); try done;
      first [ by rewrite (keeps_turs files) | by rewrite (keeps_inq files)
            | by rewrite (keeps_luns files) | by rewrite (keeps_rtpg files)
            | by rewrite (keeps_readcap files) | by rewrite (keeps_logs files)
            | by rewrite (keeps_reset files) ].
  - rewrite (exception_handler_frame stdin) by done.
    rewrite main_body_dispatch. unfold dispatch.
    destruct (family_of a); try done;
      first [ by rewrite (keeps_turs stdin) | by rewrite (keeps_inq stdin)
            | by rewrite (keeps_luns stdin) | by rewrite (keeps_rtpg stdin)
            | by rewrite (keeps_readcap stdin) | by rewrite (keeps_logs stdin)
            | by rewrite (keeps_reset stdin) ].
Qed.

(** X3.  [output_command] prints nothing while verbosity is off, however
    often it is called; with verbosity on, two calls for the same command
    print the same line twice.  It never changes the context. *)
Theorem output_command_twice c file w :
  let ctx := ActiveOutputContext w in
  let line := format (_command_formatter ctx) (VCommand c) in
  let w' := snd ((output_command c file;; output_command c file) w) in
  stream_of file w' = stream_of file w ++ (if _verbose ctx then [line; line] else []) /\
  ActiveOutputContext w' = ctx /\
  (if _verbose ctx then True else w' = w).
Proof.
  unfold output_command, _print, print. run_monad.
  destruct (_verbose (ActiveOutputContext w)) eqn:Hv; cbn [negb].
  - destruct file; world_cbn; rewrite Hv; world_cbn; cbn [negb stream_of]; world_cbn;
      by rewrite <- app_assoc.
  - cbn [snd]. rewrite Hv. cbn [negb snd]. by rewrite app_nil_r.
Qed.

(** X4.  Choosing the formatters twice is the same as choosing them once. *)
Theorem set_formatters_idempotent a w :
  (set_formatters a;; set_formatters a) w = set_formatters a w.
Proof.
  unfold mbind, M_bind, bind. rewrite !set_formatters_spec. unfold selected_formatters.
  destruct w as [p i f o e [v cf rf] ev]. world_cbn. cbn [_verbose _command_formatter _result_formatter].
  by destruct (arg_readcap a), (arg_luns a), (arg_rtpg a), (arg_hex a), (arg_raw_output a),
    (arg_json a).
Qed.

(** ** Reset *)

(** X5.  On a Linux host [reset] calls at most one reset function, the
    first of target, host and device that is asked for, even when several
    flags are set; it prints nothing, and its outcome is that function's. *)
Theorem reset_issues_one_operation device target host lun w :
  Py.startswith (platform w) "linux" = true ->
  let w' := snd (reset device target host lun w) in
  events w' = events w ++ match reset_choice target host lun with
                          | Some k => [Reset k device]
                          | None => []
                          end /\
  fst (reset device target host lun w) =
    match reset_choice target host lun with
    | Some k => match sg_reset k device (events w) with
                | Some error => Raise error
                | None => Ok tt
                end
    | None => Ok tt
    end /\
  stdout w' = stdout w /\ stderr w' = stderr w /\ files w' = files w.
Proof.
  intros Hlinux. unfold reset, reset_choice, sg_reset_call, log. run_monad.
  rewrite Hlinux.
  destruct target; [|destruct host; [|destruct lun]];
    try (destruct (sg_reset _ device (events w)); world_cbn; by rewrite ?app_nil_r).
  world_cbn. by rewrite app_nil_r.
Qed.

(** X6.  On any host whose platform name does not start with [linux],
    the other three families [asi_context] knows included, [reset] raises
    [NotImplementedError] whatever the flags, without calling a reset
    function; [main] prints the message on standard error and ends with
    status 1. *)
Theorem reset_needs_linux device target host lun w :
  Py.startswith (platform w) "linux" = false ->
  reset device target host lun w =
    (Raise (NotImplementedError "task management commands not supported on this platform"), w) /\
  forall a,
    family_of a = ResetFamily ->
    exit_status (fst (main a w)) = 1 /\
    events (snd (main a w)) = events w /\
    stderr (snd (main a w)) =
      stderr w ++ ["task management commands not supported on this platform"].
Proof.
  intros Hlinux.
  assert (forall d t h l ctx, reset d t h l (set_context ctx w) =
            (Raise (NotImplementedError
                      "task management commands not supported on this platform"),
             set_context ctx w)) as Hreset.
  { intros. unfold reset. run_monad. world_cbn. by rewrite Hlinux. }
  split.
  - unfold reset. run_monad. by rewrite Hlinux.
  - intros a Hfam. unfold main, exception_handler.
    rewrite main_body_dispatch. unfold dispatch. rewrite Hfam, Hreset. done.
Qed.

(** ** The bridge *)

Lemma sync_wait_unfold asi c quiet w :
  sync_wait asi c quiet w =
    match _sync_wait asi (execute c) (echo c w) with
    | (Ok v, w1) =>
        (Ok v, if quiet then w1
               else set_stdout (stdout w1 ++ [format (_result_formatter (ActiveOutputContext w1)) v]) w1)
    | (Raise e, w1) => (Raise e, w1)
    end.
Proof.
  unfold sync_wait. unfold mbind at 1, M_bind, bind.
  assert (output_command c Stdout w = (Ok tt, echo c w)) as ->.
  { unfold output_command, echo, _print, print. run_monad.
    by destruct (_verbose (ActiveOutputContext w)). }
  unfold mbind at 1, M_bind, bind.
  destruct (_sync_wait asi (execute c) (echo c w)) as [[v|e] w1]; [|done].
  destruct quiet; cbn [negb]; unfold output_result, _print, print; by run_monad.
Qed.

Lemma echo_output c w :
  stdout (echo c w) =
    stdout w ++ (if _verbose (ActiveOutputContext w)
                 then [format (_command_formatter (ActiveOutputContext w)) (VCommand c)]
                 else []) /\
  ActiveOutputContext (echo c w) = ActiveOutputContext w.
Proof.
  unfold echo. destruct (_verbose (ActiveOutputContext w)); [done|]. by rewrite app_nil_r.
Qed.

Lemma sync_wait_prints asi c quiet w :
  stdout (snd (sync_wait asi c quiet w)) =
    stdout w ++
    (if _verbose (ActiveOutputContext w)
     then [format (_command_formatter (ActiveOutputContext w)) (VCommand c)] else []) ++
    match fst (sync_wait asi c quiet w) with
    | Ok v => if quiet then [] else [format (_result_formatter (ActiveOutputContext w)) v]
    | Raise _ => []
    end /\
  ActiveOutputContext (snd (sync_wait asi c quiet w)) = ActiveOutputContext w.
Proof.
  rewrite (keeps_sync_wait ActiveOutputContext) by done. split; [|done].
  rewrite sync_wait_unfold.
  pose proof (keeps__sync_wait stdout (fun _ _ => eq_refl) asi (execute c) (echo c w)) as Hout.
  pose proof (keeps__sync_wait ActiveOutputContext (fun _ _ => eq_refl) asi (execute c)
                (echo c w)) as Hctx.
  destruct (echo_output c w) as [Ho Hc].
  destruct (_sync_wait asi (execute c) (echo c w)) as [[v|e] w1]; cbn [snd fst] in *.
  - destruct quiet; world_cbn.
    + by rewrite Hout, Ho, app_nil_r.
    + by rewrite Hout, Ho, Hctx, Hc, app_assoc.
  - by rewrite Hout, Ho, app_nil_r.
Qed.

(** X7.  What [sync_wait] prints: the echo of the command first, when
    verbosity is on; then the result, through the result formatter, exactly
    when the command succeeded and output was not suppressed.  When the
    command fails nothing is printed after the echo.  Standard error, the
    files, standard input and the context are left alone. *)
Theorem sync_wait_output asi c quiet w :
  let ctx := ActiveOutputContext w in
  let w' := snd (sync_wait asi c quiet w) in
  stdout w' =
    stdout w ++
    (if _verbose ctx then [format (_command_formatter ctx) (VCommand c)] else []) ++
    match fst (sync_wait asi c quiet w) with
    | Ok v => if quiet then [] else [format (_result_formatter ctx) v]
    | Raise _ => []
    end /\
  stderr w' = stderr w /\ files w' = files w /\ stdin w' = stdin w /\
  ActiveOutputContext w' = ctx.
Proof.
  cbv zeta. destruct (sync_wait_prints asi c quiet w) as [Hout Hctx].
  rewrite (keeps_sync_wait stderr), (keeps_sync_wait files), (keeps_sync_wait stdin) by done.
  by split_and!.
Qed.



(** X9.  When the device raises on a command's first call, [sync_wait]
    raises the same error, the generator is not resumed (the channel sees
    that one call only), and no result is printed. *)
Theorem sync_wait_stops_at_failure asi c quiet w op resume e :
  execute c = Call op resume ->
  executer_call asi (events w) op = Raise e ->
  fst (sync_wait asi c quiet w) = Raise e /\
  events (snd (sync_wait asi c quiet w)) = events w ++ [Called asi op] /\
  stdout (snd (sync_wait asi c quiet w)) =
    stdout w ++ (if _verbose (ActiveOutputContext w)
                 then [format (_command_formatter (ActiveOutputContext w)) (VCommand c)]
                 else []).
Proof.
  intros Hexec Hcall. rewrite sync_wait_unfold, Hexec. cbn [_sync_wait].
  unfold call, log. run_monad. rewrite echo_events, Hcall. world_cbn.
  rewrite ?echo_events. split_and!; [done..|]. apply echo_output.
Qed.

(** ** The command families *)





(** X12.  [inq] and [logs] check the page before they ask for a channel:
    a page that is neither all digits nor [0x]-prefixed is a [ValueError]
    with the state untouched, and [main] reports it on standard error and
    ends with status 1. *)
Theorem malformed_page_rejected_early device p w :
  Py.isdigit p = false -> Py.startswith p "0x" = false ->
  inq device (Some p) w = (Raise (ValueError ("invalid vpd page: " +:+ p)), w) /\
  logs device (Some p) w = (Raise (ValueError ("invalid vpd page: " +:+ p)), w) /\
  forall a,
    family_of a = Inq \/ family_of a = Logs -> arg_page a = Some p ->
    exit_status (fst (main a w)) = 1 /\
    events (snd (main a w)) = events w /\
    stderr (snd (main a w)) = stderr w ++ ["invalid vpd page: " +:+ p].
Proof.
  intros Hd Hx.
  assert (forall d w0, inq d (Some p) w0 = (Raise (ValueError ("invalid vpd page: " +:+ p)), w0))
    as Hinq.
  { intros. unfold inq. run_monad. by rewrite Hd, Hx. }
  assert (forall d w0, logs d (Some p) w0 = (Raise (ValueError ("invalid vpd page: " +:+ p)), w0))
    as Hlogs.
  { intros. unfold logs, resolve. run_monad. by rewrite Hd, Hx. }
  split_and!; [done..|].
  intros a Hfam Hpage. unfold main, exception_handler.
  rewrite main_body_dispatch. unfold dispatch.
  destruct Hfam as [-> | ->]; rewrite Hpage, ?Hinq, ?Hlogs; done.
Qed.

(** X13.  [luns] reads its select-report value with [int] in base 10
    before it asks for a channel: when that fails the error comes out with
    the state untouched. *)
Theorem malformed_select_rejected_early device select e w :
  Py.int select 10 = Raise e ->
  luns device select w = (Raise e, w) /\
  forall a,
    family_of a = Luns -> arg_select a = select ->
    exit_status (fst (main a w)) = 1 /\ events (snd (main a w)) = events w.
Proof.
  intros Hint.
  assert (forall d w0, luns d select w0 = (Raise e, w0)) as Hluns.
  { intros. unfold luns. run_monad. by rewrite Hint. }
  split; [done|]. intros a Hfam <-. unfold main, exception_handler.
  rewrite main_body_dispatch. unfold dispatch. rewrite Hfam, Hluns.
  apply int_error in Hint as [msg ->]. done.
Qed.

(** ** The handler *)

(** X14.  The handler writes on standard error only, and at most one
    line: the message of a handled error, or the rendering of the sense
    data.  A successful result is passed on, a handled error becomes
    [SystemExit(1)], and an error of any other class comes out as it went
    in, with nothing printed. *)
Theorem exception_handler_reports {A} (func : M A) w :
  let w1 := snd (func w) in
  let w' := snd (exception_handler func w) in
  fst (exception_handler func w) =
    match fst (func w) with
    | Ok a => Ok (Some a)
    | Raise (AsiCheckConditionError _) => Ok None
    | Raise e => if handled e then Raise (SystemExit 1) else Raise e
    end /\
  stderr w' = stderr w1 ++
    match fst (func w) with
    | Ok _ => []
    | Raise (AsiCheckConditionError sense_obj) => [format ErrorOutputFormatter (VObject sense_obj)]
    | Raise e => if handled e then [str_of_exn e] else []
    end /\
  stdout w' = stdout w1 /\ events w' = events w1 /\ files w' = files w1 /\
  stdin w' = stdin w1 /\ ActiveOutputContext w' = ActiveOutputContext w1.
Proof.
  cbv zeta.
  rewrite (exception_handler_frame stdout), (exception_handler_frame events),
    (exception_handler_frame files), (exception_handler_frame stdin),
    (exception_handler_frame ActiveOutputContext) by done.
  unfold exception_handler. destruct (func w) as [[a|e] w1]; cbn [fst snd].
  - by rewrite app_nil_r.
  - destruct e; cbn [handled]; unfold output_error, _print, print; run_monad; world_cbn;
      by rewrite ?app_nil_r.
Qed.

(** ** The raw command, continued *)

Lemma substring_all s : String.substring 0 (String.length s) s = s.
Proof. induction s as [|c s IH]; [done|]. cbn. by rewrite IH. Qed.

Lemma read_split n s :
  0 <= n -> fst (Py.read n s) +:+ snd (Py.read n s) = s.
Proof.
  intros _. unfold Py.read. cbn [fst snd]. generalize (Z.to_nat n) as k.
  induction s as [|c s IH]; intros [|k]; try done.
  - cbn [String.substring String.length Nat.sub]. apply (substring_all (String c s)).
  - cbn [String.substring String.length Nat.sub].
    change (String c ?a +:+ ?b) with (String c (a +:+ b)). by rewrite IH.
Qed.

(** X15.  A successful build takes its payload off the front of the input
    source and nothing more.  From standard input it consumes exactly the
    payload: payload followed by what is left is what was there.  From a
    named file it reads a prefix and leaves standard input alone.  The
    files are never changed by the builder. *)
Theorem payload_is_a_prefix cdb request output_file send input_file w c w' :
  build_raw_command cdb request output_file send input_file w = (Ok c, w') ->
  Py.len (data c) = send_length c /\
  files w' = files w /\
  (if String.eqb input_file "<stdin>" then data c +:+ stdin w' = stdin w
   else stdin w' = stdin w /\
        (send_length c = 0 \/
         exists contents, files w !! input_file = Some contents /\
                          data c = fst (Py.read (send_length c) contents))).
Proof.
  intros Hb.
  pose proof (build_raw_command_quiet cdb request output_file send input_file w)
    as (_ & _ & _ & Hfiles & _). rewrite Hb in Hfiles. cbn [snd] in Hfiles.
  apply build_raw_command_inv in Hb
    as (raw & R & N & _ & _ & HN & Hc & Hlen & Hcases).
  assert (send_length c = N) as -> by (by rewrite Hc).
  split_and!; [done..|]. unfold input_source in Hcases.
  destruct Hcases as [(-> & -> & ->)|(Hpos & source & Hsrc & -> & ->)].
  - destruct (String.eqb input_file "<stdin>"); [done|]. split; [done|by left].
  - destruct (String.eqb input_file "<stdin>").
    + simplify_eq. world_cbn. apply read_split. lia.
    + split; [done|]. right. eauto.
Qed.

(** X16.  A raw invocation that fails, at any step, leaves every file as
    it was: the output file is opened only after the command has returned
    its result.  Nothing is written to standard error by [raw] itself. *)
Theorem failed_raw_keeps_files device cdb request output_file send input_file w e w' :
  raw device cdb request output_file send input_file w = (Raise e, w') ->
  files w' = files w /\ stderr w' = stderr w.
Proof.
  unfold raw. unfold mbind at 1, M_bind, bind.
  pose proof (build_raw_command_quiet cdb request output_file send input_file w)
    as (_ & _ & Herr & Hfiles & _).
  destruct (build_raw_command _ _ _ _ _ w) as [[c|e1] w1] eqn:Hb; cbn [snd] in *.
  2:{ by intros [= <- <-]. }
  pose proof Hb as (raw & R & N & _ & _ & HN & Hc & _)%build_raw_command_inv.
  assert (0 <= send_length c) as Hs.
  { rewrite Hc. simpl. by eapply resolve_nonneg. }
  intros [(err & _ & ->)|(asi & w2 & _ & _ & Hbody & ->)]%asi_context_family; [done|].
  unfold mbind, M_bind, bind in Hbody. rewrite sync_wait_raw in Hbody by done.
  destruct (executer_call asi _ _) as [result|err].
  - destruct (given output_file) as [name|]; [|done].
    unfold open_truncate, file_write, modify in Hbody. done.
  - injection Hbody as _ <-. unfold echo.
    destruct (_verbose _); world_cbn; done.
Qed.

(** X17.  Resolving a length either gives a number that is not negative
    or raises [ValueError]; a built command therefore never asks the input
    source for a negative count and never carries a negative request
    length. *)
Theorem lengths_are_nonnegative message x :
  match resolve message x with
  | Ok v => 0 <= v
  | Raise e => exists msg, e = ValueError msg
  end /\
  forall cdb request output_file send input_file w,
    match fst (build_raw_command cdb request output_file send input_file w) with
    | Ok c => 0 <= request_length c /\ 0 <= send_length c
    | Raise _ => True
    end.
Proof.
  split.
  - destruct (resolve message x) eqn:Hr; [by eapply resolve_nonneg | by eapply resolve_error].
  - intros. destruct (build_raw_command _ _ _ _ _ w) as [[c|e] w'] eqn:Hb; [|done].
    apply build_raw_command_inv in Hb as (raw & R & N & _ & HR & HN & -> & _).
    cbn [fst request_length send_length].
    split; by eapply resolve_nonneg.
Qed.

Lemma scan_hex_digits s : forall acc n,
  forallb is_hex_digit (list_ascii_of_string s) = true ->
  Py.scan_digits 16 acc n s = (hex_from acc s, (n + String.length s)%nat, EmptyString).
Proof.
  induction s as [|c s IH]; intros acc n Hall; simpl in *.
  - by rewrite Nat.add_0_r.
  - apply andb_true_iff in Hall as [Hc Hall]. unfold is_hex_digit in Hc.
    destruct (Py.digit_value c) as [d|]; [|done]. rewrite Hc, IH by done.
    cbn [default]. replace (16 * acc + id d) with (acc * 16 + d) by (unfold id; lia).
    by rewrite Nat.add_succ_r.
Qed.

(** X18.  A length written as [0x] followed by one or more hexadecimal
    digits, in either case, resolves to the number they denote in base 16;
    an upper-case prefix [0X] is not accepted. *)
Theorem hex_length_resolution message digits :
  digits <> EmptyString ->
  forallb is_hex_digit (list_ascii_of_string digits) = true ->
  resolve message (Some (String "0" (String "x" digits))) = Ok (hex_value digits) /\
  resolve message (Some (String "0" (String "X" digits))) =
    Raise (ValueError (message +:+ String "0" (String "X" digits))).
Proof.
  intros Hne Hall. split; [|done].
  unfold resolve. change (Py.isdigit (String "0" (String "x" digits))) with false.
  assert (Py.startswith (String "0" (String "x" digits)) "0x" = true) as ->
    by (by destruct digits).
  unfold Py.int, Py.int_literal.
  change (Py.split_sign (Py.lstrip (String "0" (String "x" digits))))
    with (1, String "0" (String "x" digits)).
  cbv beta iota.
  change (Py.strip_radix_prefix 16 (String "0" (String "x" digits))) with digits.
  rewrite scan_hex_digits by done.
  destruct digits as [|c ds]; [done|]. cbn [String.length Nat.add Py.lstrip].
  unfold hex_value. f_equal. lia.
Qed.

(** ** The channel resolver, continued *)

Lemma sg_is_not_sd device :
  Py.startswith device "/dev/sg" = true -> Py.startswith device "/dev/sd" = false.
Proof.
  unfold Py.startswith. intros Hp%String.prefix_correct.
  destruct (String.prefix "/dev/sd" device) eqn:Hq; [|done].
  apply String.prefix_correct in Hq.
  cbn [String.length] in Hp, Hq.
  destruct device as [|c1 [|c2 [|c3 [|c4 [|c5 [|c6 [|c7 rest]]]]]]];
    cbn [String.substring] in Hp, Hq; try discriminate Hp.
  injection Hp as -> -> -> -> -> -> -> _. discriminate Hq.
Qed.

(** X19.  On a Linux host the device path decides the channel.  A
    [/dev/sg] path is opened as it is, on the generic transport, without
    the sd-to-sg lookup; a [/dev/sd] path is looked up first, and when
    the lookup fails the error comes out with no channel opened; any other
    path is opened as it is on the device-mapper transport. *)
Theorem linux_channel_routing {A} device (body : executer -> M A) w :
  Py.startswith (platform w) "windows" = false ->
  Py.startswith (platform w) "linux" = true ->
  (Py.startswith device "/dev/sg" = true ->
   asi_context device body w = with_executer (mkExecuter linux_sg device) body w) /\
  (forall e, Py.startswith device "/dev/sd" = true -> get_sg_from_sd device = Raise e ->
   asi_context device body w = (Raise e, w)) /\
  (Py.startswith device "/dev/sg" = false -> Py.startswith device "/dev/sd" = false ->
   asi_context device body w = with_executer (mkExecuter linux_dm device) body w).
Proof.
  intros Hw Hl.
  assert (asi_context device body w =
          (device ← (if Py.startswith device "/dev/sd" then lift (get_sg_from_sd device)
                     else mret device);
           with_executer
             (mkExecuter (if Py.startswith device "/dev/sg" then linux_sg else linux_dm) device)
             body) w) as ->.
  { unfold asi_context. unfold mbind at 1, M_bind, bind, get. cbv beta iota zeta.
    by rewrite Hw, Hl. }
  split_and!.
  - intros Hsg. rewrite (sg_is_not_sd device Hsg). run_monad. by rewrite Hsg.
  - intros e Hsd Hlookup. rewrite Hsd. run_monad. by rewrite Hlookup.
  - intros Hsg Hsd. rewrite Hsd. run_monad. by rewrite Hsg.
Qed.

(** ** Results on standard output *)

Lemma channel_command_output device c w w' :
  asi_context device (fun asi => sync_wait asi c false;; mret tt) w = (Ok tt, w') ->
  exists asi v,
    fst (sync_wait asi c false (set_events (events w ++ [Opened asi]) w)) = Ok v /\
    stdout w' =
      stdout w ++
      (if _verbose (ActiveOutputContext w)
       then [format (_command_formatter (ActiveOutputContext w)) (VCommand c)] else []) ++
      [format (_result_formatter (ActiveOutputContext w)) v].
Proof.
  intros [(err & ? & _)|(ex & w1 & _ & _ & Hbody & ->)]%asi_context_family; [done|].
  pose proof (sync_wait_prints ex c false (set_events (events w ++ [Opened ex]) w))
    as (Hout & _).
  unfold mbind, M_bind, bind in Hbody.
  destruct (sync_wait ex c false _) as [[v|e] w2] eqn:Hsw; [|done].
  cbn [fst snd negb] in Hout. unfold mret, M_ret, ret in Hbody. simplify_eq.
  exists ex, v. rewrite Hsw. split; [done|]. by world_cbn.
Qed.

(** X20.  When [main] returns from one of the families that run a single
    library command (inq, luns, rtpg, readcap, logs), standard output has
    gained the echo, if verbosity is on, of the command that family builds
    from the arguments, followed by exactly one line: the rendering of the
    value [sync_wait] returned for that command on the channel it opened.
    Both lines go through the formatters of the configured context. *)
Theorem result_is_printed_once a w w' :
  main a w = (Ok (Some tt), w') ->
  In (family_of a) [Inq; Luns; Rtpg; Readcap; Logs] ->
  let ctx := ActiveOutputContext w' in
  exists c asi v,
    family_command a = Ok c /\
    fst (sync_wait asi (Library c) false
           (set_events (events w ++ [Opened asi]) (set_context ctx w))) = Ok v /\
    stdout w' =
      stdout w ++
      (if _verbose ctx then [format (_command_formatter ctx) (VCommand (Library c))] else []) ++
      [format (_result_formatter ctx) v].
Proof.
  intros Hmain Hfam.
  pose proof (main_context a w) as Hctx.
  rewrite Hmain in Hctx. cbn [snd] in Hctx. cbv zeta. rewrite Hctx.
  unfold main, exception_handler in Hmain. rewrite main_body_dispatch in Hmain.
  set (cfg := configured a (ActiveOutputContext w)) in *.
  assert (dispatch a (set_context cfg w) = (Ok tt, w')) as Hrun.
  { destruct (dispatch a (set_context cfg w)) as [[[]|e] w1]; [by simplify_eq|].
    destruct e; unfold output_error, _print, print in Hmain; run_monad; discriminate Hmain. }
  clear Hmain Hctx.
  assert (forall c,
            family_command a = Ok c ->
            asi_context (arg_device a) (fun asi => sync_wait asi (Library c) false;; mret tt)
              (set_context cfg w) = (Ok tt, w') ->
            exists c asi v,
              family_command a = Ok c /\
              fst (sync_wait asi (Library c) false
                     (set_events (events w ++ [Opened asi]) (set_context cfg w))) = Ok v /\
              stdout w' =
                stdout w ++
                (if _verbose cfg then [format (_command_formatter cfg) (VCommand (Library c))]
                 else []) ++
                [format (_result_formatter cfg) v]) as Hone.
  { intros c Hc (asi & v & Hv & Hout)%channel_command_output. by exists c, asi, v. }
  unfold dispatch in Hrun. cbn [In] in Hfam.
  destruct Hfam as [Hf|[Hf|[Hf|[Hf|[Hf|[]]]]]]; rewrite <- Hf in Hrun.
  - unfold inq in Hrun. unfold mbind at 1, M_bind, bind in Hrun.
    destruct (arg_page a) as [p|] eqn:Hp.
    + destruct (Py.isdigit p) eqn:Hd; [|destruct (Py.startswith p "0x") eqn:Hx]; run_monad.
      * destruct (Py.int p 10) as [n|] eqn:Hn; [|done].
        destruct (get_vpd_page n) as [c|] eqn:Hc; [|done].
        apply (Hone c); [|done]. unfold family_command. by rewrite <- Hf, Hp, Hd, Hn.
      * destruct (Py.int p 16) as [n|] eqn:Hn; [|done].
        destruct (get_vpd_page n) as [c|] eqn:Hc; [|done].
        apply (Hone c); [|done]. unfold family_command. by rewrite <- Hf, Hp, Hd, Hx, Hn.
      * done.
    + apply (Hone (StandardInquiryCommand 219)); [|done].
      unfold family_command. by rewrite <- Hf, Hp.
  - unfold luns in Hrun. unfold mbind at 1, M_bind, bind, lift in Hrun.
    destruct (Py.int _ _) as [n|] eqn:Hn; [|done].
    apply (Hone (ReportLunsCommand n)); [|done].
    unfold family_command. by rewrite <- Hf, Hn.
  - unfold rtpg in Hrun. eapply Hone; [|done]. unfold family_command. by rewrite <- Hf.
  - unfold readcap in Hrun. eapply Hone; [|done]. unfold family_command. by rewrite <- Hf.
  - unfold logs in Hrun. unfold mbind at 1, M_bind, bind, lift in Hrun.
    destruct (resolve _ _) as [n|] eqn:Hn; [|done].
    apply (Hone (LogSenseCommand n)); [|done].
    unfold family_command. by rewrite <- Hf, Hn.
Qed.

End Extras.

(** ** Instances of the further results *)

Lemma only_raw_touches_files_witness :
  let w := example_world "linux" "abcd" in
  let a := family_arguments Readcap None "0" true false in
  family_of a <> RawFamily /\
  files (snd (@main example_externals a w)) = files w /\
  stdin (snd (@main example_externals a w)) = "abcd".
Proof.
  intros w a. split; [discriminate|].
  apply (@only_raw_touches_files example_externals a w). discriminate.
Defined.

Lemma reset_issues_one_operation_witness :
  let w := example_world "linux" "" in
  Py.startswith (platform w) "linux" = true /\
  events (snd (@reset example_externals "/dev/sg0" true true false w))
    = [Reset target_reset "/dev/sg0"].
Proof.
  intros w. split; [reflexivity|].
  destruct (@reset_issues_one_operation example_externals "/dev/sg0" true true false w)
    as (Hev & _); [reflexivity|]. exact Hev.
Defined.

Lemma reset_needs_linux_witness :
  let w := example_world "windows" "" in
  Py.startswith (platform w) "linux" = false /\
  exit_status (fst (@main example_externals (reset_arguments true false false) w)) = 1 /\
  events (snd (@main example_externals (reset_arguments true false false) w)) = [].
Proof.
  intros w. split; [reflexivity|].
  destruct (@reset_needs_linux example_externals "/dev/sg0" true false false w)
    as (_ & Hmain); [reflexivity|].
  destruct (Hmain (reset_arguments true false false)) as (Hs & He & _); [reflexivity|].
  split; [exact Hs | exact He].
Defined.

Lemma sync_wait_stops_at_failure_witness :
  let w := example_world "linux" "" in
  let asi := mkExecuter linux_sg "/dev/sg0" in
  let c := Raw (mkCDB "AB" 36 0 "") in
  fst (@sync_wait failing_externals asi c false w) = Raise (AsiCheckConditionError 7%N) /\
  events (snd (@sync_wait failing_externals asi c false w))
    = [Called asi (SCSIReadCommand "AB" 36)] /\
  stdout (snd (@sync_wait failing_externals asi c false w)) = [].
Proof.
  intros w asi c.
  apply (@sync_wait_stops_at_failure failing_externals asi c false w
           (SCSIReadCommand "AB" 36) (fun d => Final (VStr d)) (AsiCheckConditionError 7%N));
    reflexivity.
Defined.



Lemma malformed_page_rejected_early_witness :
  let w := example_world "linux" "" in
  Py.isdigit "abc" = false /\ Py.startswith "abc" "0x" = false /\
  @inq example_externals "/dev/sg0" (Some "abc") w
    = (Raise (ValueError "invalid vpd page: abc"), w) /\
  @logs example_externals "/dev/sg0" (Some "abc") w
    = (Raise (ValueError "invalid vpd page: abc"), w) /\
  exit_status (fst (@main example_externals (family_arguments Logs (Some "abc") "0" false false) w))
    = 1.
Proof.
  intros w. split; [reflexivity|]. split; [reflexivity|].
  destruct (@malformed_page_rejected_early example_externals "/dev/sg0" "abc" w)
    as (Hinq & Hlogs & Hmain); [reflexivity..|].
  split; [exact Hinq|]. split; [exact Hlogs|].
  destruct (Hmain (family_arguments Logs (Some "abc") "0" false false)) as (Hs & _);
    [by right | reflexivity | exact Hs].
Defined.

Lemma malformed_select_rejected_early_witness :
  let w := example_world "linux" "" in
  let e := ValueError "invalid literal for int() with base 10: '0x1'" in
  Py.int "0x1" 10 = Raise e /\
  @luns example_externals "/dev/sg0" "0x1" w = (Raise e, w).
Proof.
  intros w e. split; [reflexivity|].
  apply (@malformed_select_rejected_early example_externals "/dev/sg0" "0x1" e w).
  reflexivity.
Defined.

Lemma payload_is_a_prefix_witness :
  let w := example_world "linux" "abcd" in
  let c := mkCDB "AB" 0 2 "ab" in
  build_raw_command (CdbList ["41"; "42"]) None None (Some "2") "<stdin>" w
    = (Ok c, set_stdin "cd" w) /\
  Py.len (data c) = send_length c /\
  files (set_stdin "cd" w) = files w /\
  "ab" +:+ "cd" = stdin w.
Proof.
  intros w c.
  assert (build_raw_command (CdbList ["41"; "42"]) None None (Some "2") "<stdin>" w
          = (Ok c, set_stdin "cd" w)) as Hb by (vm_compute; reflexivity).
  split; [exact Hb|].
  exact (payload_is_a_prefix _ _ _ _ _ _ _ _ Hb).
Defined.

Lemma failed_raw_keeps_files_witness :
  let w := example_world "linux" "" in
  let run := @raw failing_externals "/dev/sg0" (CdbList ["41"; "42"]) (Some "4")
               (Some "in.bin") None "<stdin>" w in
  fst run = Raise (AsiCheckConditionError 7%N) /\
  files (snd run) = files w /\ stderr (snd run) = stderr w.
Proof.
  intros w run.
  assert (run = (Raise (AsiCheckConditionError 7%N), snd run)) as Hrun
    by (vm_compute; reflexivity).
  split; [by rewrite Hrun|].
  exact (@failed_raw_keeps_files failing_externals _ _ _ _ _ _ _ _ _ Hrun).
Defined.

Lemma hex_length_resolution_witness :
  "1F" <> EmptyString /\
  forallb is_hex_digit (list_ascii_of_string "1F") = true /\
  resolve "invalid request length: " (Some "0x1F") = Ok (hex_value "1F") /\
  hex_value "1F" = 31 /\
  resolve "invalid request length: " (Some "0X1F")
    = Raise (ValueError "invalid request length: 0X1F").
Proof.
  split; [discriminate|]. split; [reflexivity|].
  destruct (hex_length_resolution "invalid request length: " "1F") as [Hx HX];
    [discriminate | reflexivity |].
  split; [exact Hx|]. split; [reflexivity | exact HX].
Defined.

Lemma linux_channel_routing_witness :
  let w := example_world "linux" "" in
  Py.startswith (platform w) "windows" = false /\
  Py.startswith (platform w) "linux" = true /\
  Py.startswith "/dev/sg0" "/dev/sg" = true /\
  @asi_context example_externals unit "/dev/sg0" (fun _ => mret tt) w
    = @with_executer example_externals unit (mkExecuter linux_sg "/dev/sg0") (fun _ => mret tt) w.
Proof.
  intros w. split; [reflexivity|]. split; [reflexivity|]. split; [reflexivity|].
  destruct (@linux_channel_routing example_externals unit "/dev/sg0" (fun _ => mret tt) w)
    as (Hsg & _); [reflexivity | reflexivity |].
  apply Hsg. reflexivity.
Defined.

Lemma result_is_printed_once_witness :
  let w := example_world "linux" "" in
  let a := family_arguments Readcap None "0" true false in
  let w' := snd (@main example_externals a w) in
  @main example_externals a w = (Ok (Some tt), w') /\
  stdout w' = ["default:<command>"; "readcap:DATA"] /\
  exists c asi v,
    @family_command example_externals a = Ok c /\
    fst (@sync_wait example_externals asi (Library c) false
           (set_events (events w ++ [Opened asi]) (set_context (ActiveOutputContext w') w)))
      = Ok v /\
    stdout w' =
      stdout w ++
      (if _verbose (ActiveOutputContext w')
       then [@format example_externals (_command_formatter (ActiveOutputContext w'))
               (VCommand (Library c))] else []) ++
      [@format example_externals (_result_formatter (ActiveOutputContext w')) v].
Proof.
  intros w a w'.
  assert (@main example_externals a w = (Ok (Some tt), w')) as Hrun by (vm_compute; reflexivity).
  split; [exact Hrun|]. split; [reflexivity|].
  apply (@result_is_printed_once example_externals a w w' Hrun).
  cbn. tauto.
Defined.
